(** * picow-apc1-aqi-monitor: the APC1 register decoder and the Wi-Fi bootstrap

    A shallow embedding of [lib/apc1/__init__.py] (module [APC1]) and of
    [main.py] (module [Main]), with the properties of the register decoder,
    the bulk read, the constructor, the connection loop, the top-level
    fallback and the credential file.

    Python values are modelled as the code uses them: [int] as [Z], [bytes]
    as [list byte], [str] as [string], [float] as an IEEE 754 binary64 number
    ([spec_float] with precision 53), a [dict] keyed by strings as
    [gmap string _].  Exceptions are the [Raise] results of a state-and-error
    monad: a raising call keeps the effects it had before it raised. *)

From Stdlib Require Import ZArith QArith Qabs List Ascii String Strings.Byte SpecFloat Lia.
From stdpp Require Import base option list gmap strings pretty fin_maps.

Local Open Scope string_scope.
Local Open Scope Z_scope.

(** ** Python numbers *)

Module Py.

(** [float] is binary64: 53 bits of precision, exponents up to 1024. *)
Definition prec : Z := 53.
Definition emax : Z := 1024.

Inductive num :=
  | Int (z : Z)
  | Float (f : spec_float).

(** The exceptions the two source files raise or let through. *)
Inductive exn :=
  | ValueError (msg : string)
  | OverflowError (msg : string)
  | OSError (errno : Z)
  | WifiConnectionError (msg : string).

Inductive result (A : Type) :=
  | Ok (a : A)
  | Raise (e : exn).
Arguments Ok {A} a.
Arguments Raise {A} e.

(** [float(z)] for an [int]: round to nearest even; an [int] beyond the
    range of the format raises [OverflowError]. *)
Definition float_of_int (z : Z) : result spec_float :=
  match binary_normalize prec emax z 0 false with
  | S754_infinity _ => Raise (OverflowError "int too large to convert to float")
  | f => Ok f
  end.

(** [a * b] on numbers: [int * int] is exact, a mixed product converts the
    [int] operand first. *)
Definition mul (a b : num) : result num :=
  match a, b with
  | Int x, Int y => Ok (Int (x * y))
  | Int x, Float g =>
      match float_of_int x with
      | Ok f => Ok (Float (SFmul prec emax f g))
      | Raise e => Raise e
      end
  | Float f, Int y =>
      match float_of_int y with
      | Ok g => Ok (Float (SFmul prec emax f g))
      | Raise e => Raise e
      end
  | Float f, Float g => Ok (Float (SFmul prec emax f g))
  end.

(** The literal [0.1]: the binary64 number nearest to one tenth,
    [0x1.999999999999ap-4]. *)
Definition lit_0_1 : spec_float := S754_finite false 7205759403792794 (-56).

(** The float [10.0], that is [1.25 * 2^3]. *)
Definition lit_10_0 : spec_float := S754_finite false 5629499534213120 (-49).

(** [int.from_bytes(raw, 'big')]: the first byte is the most significant. *)
Definition int_from_bytes_big (raw : list byte) : Z :=
  fold_left (fun acc b => acc * 256 + Z.of_N (Byte.to_N b)) raw 0.

(** [str(z)] as an f-string renders an [int]. *)
Definition str_of_int (z : Z) : string := pretty z.

(** [x or d] for an optional [int] argument: [None] and [0] are falsy. *)
Definition or_default (x : option Z) (d : Z) : Z :=
  match x with
  | Some v => if v =? 0 then d else v
  | None => d
  end.

End Py.

Import Py.

(** ** lib/apc1/__init__.py *)

Module APC1.

(** A row of [_REG_MAP]: [[name, address, num_bytes, scale, unit, description]]. *)
Record reg_info := RegInfo {
  reg_name : string;
  reg_address : Z;
  reg_num_bytes : Z;
  reg_scale : num;
  reg_unit : string;
  reg_description : string
}.

Definition _REG_MAP : list reg_info := [
  RegInfo "PM1.0" 0x04 2 (Int 1) "ug/m3" "PM1.0 Mass Concentration";
  RegInfo "PM2.5" 0x06 2 (Int 1) "ug/m3" "PM2.5 Mass Concentration";
  RegInfo "PM10" 0x08 2 (Int 1) "ug/m3" "PM10 Mass Concentration";
  RegInfo "TVOC" 0x1C 2 (Int 1) "ppb" "TVOC output";
  RegInfo "eCO2" 0x1E 2 (Int 1) "ppm" "Output in ppm CO2 equivalents";
  RegInfo "T-comp" 0x22 2 (Float lit_0_1) "C" "Compensated Temperature";
  RegInfo "RH-comp" 0x24 2 (Float lit_0_1) "%" "Compensated Relative Humidity";
  RegInfo "T-raw" 0x26 2 (Float lit_0_1) "C" "Raw Temperature";
  RegInfo "RH-raw" 0x28 2 (Float lit_0_1) "%" "Raw Relative Humidity";
  RegInfo "AQI" 0x3A 1 (Int 1) EmptyString "AQI according to TVOC value"
].

Definition _DEFAULT_DEVICE_ADDR : Z := 0x12.

(** One [readfrom_mem(addr, memaddr, nbytes)] transaction. *)
Record i2c_read := I2CRead {
  rd_addr : Z;
  rd_memaddr : Z;
  rd_nbytes : Z
}.

(** The bus with the devices on it: what a transaction returns, given the
    transactions issued before it (oldest first).  The answer is either the
    bytes read or the [OSError] the driver raises. *)
Definition i2c_bus := list i2c_read -> i2c_read -> result (list byte).

(** The sensor object together with the class attribute it reads and the
    bus it drives.  [reads] records the transactions issued, oldest first. *)
Record state := State {
  cls_REG_MAP : list reg_info;
  i2c_id : Z;
  i2c_scl : Z;
  i2c_sda : Z;
  i2c_freq : Z;
  device_addr : Z;
  bus : i2c_bus;
  reads : list i2c_read
}.

(** Methods run in a state-and-error monad over the object. *)
Definition M (A : Type) : Type := state -> result A * state.

Definition ret {A} (a : A) : M A := fun self => (Ok a, self).
Definition raise {A} (e : exn) : M A := fun self => (Raise e, self).
Definition bind {A B} (c : M A) (k : A -> M B) : M B :=
  fun self =>
    match c self with
    | (Ok a, self') => k a self'
    | (Raise e, self') => (Raise e, self')
    end.
Definition lift {A} (r : result A) : M A := fun self => (r, self).

Notation "x <- c ;; k" := (bind c (fun x => k))
  (at level 100, c at next level, right associativity).

(** [__init__]: [device_addr or self._DEFAULT_DEVICE_ADDR]. *)
Definition __init__ (b : i2c_bus) (id scl sda freq : Z) (device_addr : option Z)
  : state :=
  {| cls_REG_MAP := _REG_MAP;
     i2c_id := id; i2c_scl := scl; i2c_sda := sda; i2c_freq := freq;
     device_addr := or_default device_addr _DEFAULT_DEVICE_ADDR;
     bus := b;
     reads := [] |}.

(** The call [APC1()] with every argument left at its default. *)
Definition default_init (b : i2c_bus) : state := __init__ b 0 1 0 100000 None.

Definition get_reg_map : M (list reg_info) :=
  fun self => (Ok (cls_REG_MAP self), self).

(** [self.readfrom_mem(...)]: the transaction is logged whatever it returns. *)
Definition log_read (rd : i2c_read) (self : state) : state :=
  {| cls_REG_MAP := cls_REG_MAP self;
     i2c_id := i2c_id self; i2c_scl := i2c_scl self;
     i2c_sda := i2c_sda self; i2c_freq := i2c_freq self;
     device_addr := device_addr self;
     bus := bus self;
     reads := reads self ++ [rd] |}.

Definition readfrom_mem (addr memaddr nbytes : Z) : M (list byte) :=
  fun self =>
    let rd := I2CRead addr memaddr nbytes in
    (bus self (reads self) rd, log_read rd self).

Definition read_sensor_data (register num_bytes : Z) : M (list byte) :=
  fun self => readfrom_mem (device_addr self) register num_bytes self.

(** [{reg[0]: reg for reg in self._REG_MAP}]: a later row replaces an
    earlier one of the same name. *)
Definition reg_map_dict (regs : list reg_info) : gmap string reg_info :=
  fold_left (fun d reg => <[reg_name reg := reg]> d) regs ∅.

(** The two [ValueError]s of [get_sensor_data], with their messages. *)
Definition UnknownRegister (register_name : string) : exn :=
  ValueError ("Register '" +:+ register_name +:+ "' not found.").

Definition ShortRead (num_bytes got : Z) : exn :=
  ValueError ("Expected " +:+ str_of_int num_bytes +:+ " bytes of data, but got "
              +:+ str_of_int got +:+ ".").

Definition get_sensor_data (register_name : string) : M (num * string * string) :=
  fun self =>
    match reg_map_dict (cls_REG_MAP self) !! register_name with
    | None => raise (UnknownRegister register_name) self
    | Some register_info =>
        let register_address := reg_address register_info in
        let num_bytes := reg_num_bytes register_info in
        let scale := reg_scale register_info in
        let unit := reg_unit register_info in
        let description := reg_description register_info in
        (raw_data <- read_sensor_data register_address num_bytes ;;
         if negb (Z.of_nat (length raw_data) =? num_bytes)
         then raise (ShortRead num_bytes (Z.of_nat (length raw_data)))
         else
           value <- lift (mul (Int (int_from_bytes_big raw_data)) scale) ;;
           ret (value, unit, description)) self
    end.

(** An entry of the mapping [get_all_sensor_data] returns. *)
Record reading := Reading {
  value : num;
  unit : string;
  description : string
}.

(** The [for] loop of [get_all_sensor_data] over the rows still to do. *)
Fixpoint get_all_loop (regs : list reg_info) (all_data : gmap string reading)
  : M (gmap string reading) :=
  match regs with
  | [] => ret all_data
  | reg_info :: rest =>
      let register_name := reg_name reg_info in
      r <- get_sensor_data register_name ;;
      let '(value, unit, description) := r in
      get_all_loop rest
        (<[register_name := Reading value unit description]> all_data)
  end.

Definition get_all_sensor_data : M (gmap string reading) :=
  fun self => get_all_loop (cls_REG_MAP self) ∅ self.

End APC1.

(** ** main.py *)

Module Main.

Definition CREDENTIALS_FILE : string := "wifi_config.py".

(** The line feed the two [write] calls end their lines with. *)
Definition LF : ascii := "010"%char.
Definition nl : string := String LF EmptyString.

(** The double quote character, as it occurs inside a printed message. *)
Definition dquote : string := String "034"%char EmptyString.

(** What the program does to the outside, in order. *)
Inductive event :=
  | EvStaActive (on : bool)          (* wlan.active(on) on the STA interface *)
  | EvIsConnected (answer : bool)    (* wlan.isconnected() and its result *)
  | EvConnect (ssid password : string)
  | EvSleep (seconds : num)          (* time.sleep(seconds) *)
  | EvPrint (text : string)
  | EvApActive (on : bool)           (* ap.active(on) on the AP interface *)
  | EvApIsActive (answer : bool)     (* ap.active() and its result *)
  | EvApConfigEssid (essid : string)
  | EvApConfigSecurity (security : Z)
  | EvTimerOneShotReset (period_ms : Z)
  | EvServe (host : string) (port : Z).

(** The radio and the network around it: what the status calls answer,
    given everything the program did so far (oldest first). *)
Record network := Network {
  net_isconnected : list event -> bool;
  net_ap_active : list event -> bool;
  net_sta_ip : list event -> string;
  net_ap_ifconfig : list event -> string
}.

(** The program's world: the module globals imported from [wifi_config],
    the flash file system and the events so far. *)
Record world := World {
  SSID : string;
  PASSWORD : string;
  net : network;
  files : gmap string string;
  trace : list event
}.

Definition emit (e : event) (w : world) : world :=
  {| SSID := SSID w; PASSWORD := PASSWORD w; net := net w;
     files := files w; trace := trace w ++ [e] |}.

Definition isconnected (w : world) : bool * world :=
  let c := net_isconnected (net w) (trace w) in (c, emit (EvIsConnected c) w).

Definition ap_is_active (w : world) : bool * world :=
  let a := net_ap_active (net w) (trace w) in (a, emit (EvApIsActive a) w).

(** An f-string field: [None] is rendered as the word [None]. *)
Definition fstr (v : option string) : string := default "None" v.

(** [save_wifi_credentials]: mode ['w'] replaces the file by the two lines. *)
Definition save_wifi_credentials (ssid password : option string) (w : world)
  : world :=
  let f := EmptyString in
  let f := f +:+ ("SSID = '" +:+ fstr ssid +:+ "'" +:+ nl) in
  let f := f +:+ ("PASSWORD = '" +:+ fstr password +:+ "'" +:+ nl) in
  {| SSID := SSID w; PASSWORD := PASSWORD w; net := net w;
     files := <[CREDENTIALS_FILE := f]> (files w); trace := trace w |}.

Definition max_attempts : Z := 10.

Definition wifi_error : exn :=
  WifiConnectionError "Unable to connect to Wi-Fi after 10 attempts.".

(** The [while not wlan.isconnected()] loop of [connect_wifi].  Each unit of
    [fuel] pays for one evaluation of the loop condition; [None] means the
    fuel ran out before the loop was left. *)
Fixpoint connect_loop (fuel : nat) (curr_attempt : Z) (w : world)
  : option (result unit * world) :=
  match fuel with
  | O => None
  | S fuel' =>
      let (c, w) := isconnected w in
      if negb c then
        let w := emit (EvSleep (Int 1)) w in
        let w := emit (EvPrint ".") w in
        let curr_attempt := curr_attempt + 1 in
        if curr_attempt >=? max_attempts then
          let w := emit (EvStaActive false) w in
          Some (Raise wifi_error, w)
        else connect_loop fuel' curr_attempt w
      else Some (Ok tt, w)
  end.

Definition connect_wifi (fuel : nat) (w : world) : option (result unit * world) :=
  let curr_attempt := 0 in
  let w := emit (EvStaActive true) w in
  let (c, w) := isconnected w in
  let r :=
    if negb c then
      let w := emit (EvPrint "Connecting to WiFi...") w in
      let w := emit (EvConnect (SSID w) (PASSWORD w)) w in
      connect_loop fuel curr_attempt w
    else Some (Ok tt, w) in
  match r with
  | Some (Ok _, w) =>
      let w := emit (EvPrint (nl +:+ "Connected to WiFi!")) w in
      let w := emit (EvPrint ("IP Address: " +:+ net_sta_ip (net w) (trace w))) w in
      Some (Ok tt, w)
  | other => other
  end.

(** The [while not ap.active()] wait of [start_ap_mode]. *)
Fixpoint ap_wait_loop (fuel : nat) (w : world) : option world :=
  match fuel with
  | O => None
  | S fuel' =>
      let (a, w) := ap_is_active w in
      if negb a then ap_wait_loop fuel' (emit (EvSleep (Int 1)) w)
      else Some w
  end.

(** The request a form post carries: its fields by name. *)
Definition request := gmap string string.

(** [n] spaces of indentation. *)
Fixpoint spaces (n : nat) : string :=
  match n with
  | O => EmptyString
  | S n' => String " "%char (spaces n')
  end.

(** The page [submit] answers with, a triple-quoted literal in the source. *)
Definition saved_page : string :=
  nl +:+ spaces 12 +:+ "<html>"
  +:+ nl +:+ spaces 16 +:+ "<body>"
  +:+ nl +:+ spaces 20 +:+ "<h1>Credentials Saved!</h1>"
  +:+ nl +:+ spaces 20
  +:+ "<p>The Wi-Fi credentials have been saved. The device will reboot now.</p>"
  +:+ nl +:+ spaces 16 +:+ "</body>"
  +:+ nl +:+ spaces 12 +:+ "</html>"
  +:+ nl +:+ spaces 8.

(** The [/submit] handler of the access-point application. *)
Definition submit (req : request) (w : world) : string * world :=
  let ssid := req !! "ssid" in
  let password := req !! "password" in
  let w := save_wifi_credentials ssid password w in
  let w := emit (EvSleep (Float lit_0_1)) w in
  let w := emit (EvApActive false) w in
  let w := emit (EvTimerOneShotReset 5000) w in
  (saved_page, w).

(** [start_ap_mode] up to the point where the server takes over. *)
Definition start_ap_mode (fuel : nat) (w : world) : option world :=
  let w := emit (EvApActive false) w in
  let w := emit (EvApActive true) w in
  let w := emit (EvApConfigEssid "AQISetup") w in
  let w := emit (EvApConfigSecurity 0) w in
  match ap_wait_loop fuel w with
  | None => None
  | Some w =>
      let w := emit (EvPrint (net_ap_ifconfig (net w) (trace w))) w in
      let w := emit (EvPrint ("Access Point started, connect to " +:+ dquote
                              +:+ "AQI-Setup" +:+ dquote)) w in
      Some (emit (EvServe "0.0.0.0" 80) w)
  end.

(** Where the top level of [main.py] stands once its [try] statement has
    decided: at the sensor page set-up below it ([Connected]), inside the
    handler that calls [start_ap_mode] ([APMode]), or stopped by an
    exception no handler caught ([Crashed]). *)
Inductive phase :=
  | TryStored
  | Connected
  | APMode
  | Crashed (e : exn).

Definition is_WifiConnectionError (e : exn) : bool :=
  match e with
  | WifiConnectionError _ => true
  | _ => false
  end.

(** [try: connect_wifi() except WifiConnectionError: start_ap_mode()]:
    the step out of [TryStored]. *)
Definition try_connect (fuel : nat) (w : world) : option (phase * world) :=
  match connect_wifi fuel w with
  | None => None
  | Some (Ok _, w) => Some (Connected, w)
  | Some (Raise e, w) =>
      if is_WifiConnectionError e then Some (APMode, w)
      else Some (Crashed e, w)
  end.

(** The top level as a whole: after a successful connection the sensor page
    is served; in the handler, [start_ap_mode] runs and its server takes
    over.  Neither server returns. *)
Definition main (fuel : nat) (w : world) : option (phase * world) :=
  match try_connect fuel w with
  | Some (Connected, w) => Some (Connected, emit (EvServe "0.0.0.0" 80) w)
  | Some (APMode, w) =>
      match start_ap_mode fuel w with
      | Some w => Some (APMode, w)
      | None => None
      end
  | other => other
  end.

(** *** Loading [wifi_config.py] at the next start

    [main.py] begins with [from wifi_config import SSID, PASSWORD]: the file
    [save_wifi_credentials] wrote is read back as Python source.  The reader
    below covers the modules that file can be when all goes well: lines that
    assign one single-quoted string literal to a name.  It answers [None] for
    any other text: text Python rejects (a literal that is not closed on its
    line, tokens left over after the closing quote) and text outside this
    fragment (octal, hexadecimal, named and Unicode escapes, line
    continuations, larger expressions). *)

Definition CR : ascii := "013"%char.
Definition NUL : ascii := "000"%char.
Definition quote : ascii := "'"%char.
Definition backslash : ascii := "\"%char.

(** What a backslash followed by [c] stands for in a string literal:
    [Some (Some x)] for a simple escape, [Some None] for a pair the reader
    keeps as it is, [None] for escapes outside the fragment. *)
Definition escape (c : ascii) : option (option ascii) :=
  if Ascii.eqb c backslash then Some (Some backslash)
  else if Ascii.eqb c quote then Some (Some quote)
  else if Ascii.eqb c "034"%char then Some (Some "034"%char)
  else if Ascii.eqb c "n"%char then Some (Some LF)
  else if Ascii.eqb c "r"%char then Some (Some CR)
  else if Ascii.eqb c "t"%char then Some (Some "009"%char)
  else if Ascii.eqb c "a"%char then Some (Some "007"%char)
  else if Ascii.eqb c "b"%char then Some (Some "008"%char)
  else if Ascii.eqb c "f"%char then Some (Some "012"%char)
  else if Ascii.eqb c "v"%char then Some (Some "011"%char)
  else if Ascii.eqb c "x"%char || Ascii.eqb c "N"%char
          || Ascii.eqb c "u"%char || Ascii.eqb c "U"%char
          || Ascii.eqb c LF || Ascii.eqb c CR || Ascii.eqb c NUL
          || (Ascii.leb "0"%char c && Ascii.leb c "7"%char)
       then None
  else Some None.

(** The body of a single-quoted literal, read from just after the opening
    quote: the text it denotes and the source left after the closing quote. *)
Fixpoint read_literal (src : string) : option (string * string) :=
  match src with
  | EmptyString => None
  | String c rest =>
      if Ascii.eqb c quote then Some (EmptyString, rest)
      else if Ascii.eqb c LF || Ascii.eqb c CR || Ascii.eqb c NUL then None
      else if Ascii.eqb c backslash then
        match rest with
        | EmptyString => None
        | String e rest' =>
            match escape e, read_literal rest' with
            | Some (Some x), Some (text, after) => Some (String x text, after)
            | Some None, Some (text, after) =>
                Some (String backslash (String e text), after)
            | _, _ => None
            end
        end
      else
        match read_literal rest with
        | Some (text, after) => Some (String c text, after)
        | None => None
        end
  end.

Definition is_ident_char (c : ascii) : bool :=
  (Ascii.leb "a"%char c && Ascii.leb c "z"%char)
  || (Ascii.leb "A"%char c && Ascii.leb c "Z"%char)
  || (Ascii.leb "0"%char c && Ascii.leb c "9"%char)
  || Ascii.eqb c "_"%char.

Definition is_blank (c : ascii) : bool :=
  Ascii.eqb c " "%char || Ascii.eqb c "009"%char.

(** The longest prefix whose characters satisfy [p], and the rest. *)
Fixpoint span (p : ascii -> bool) (s : string) : string * string :=
  match s with
  | EmptyString => (EmptyString, EmptyString)
  | String c rest =>
      if p c then let (a, b) := span p rest in (String c a, b)
      else (EmptyString, s)
  end.

Definition drop_blanks (s : string) : string := snd (span is_blank s).

(** One logical line [NAME = '...']: the name bound and its value.  A blank
    line or a comment binds nothing. *)
Inductive stmt :=
  | Assign (name text : string)
  | Pass.

Definition starts_blank (s : string) : bool :=
  match s with
  | String c _ => is_blank c
  | EmptyString => false
  end.

(** After the closing quote only blanks or a comment may follow. *)
Definition line_ends (after : string) : bool :=
  match drop_blanks after with
  | EmptyString => true
  | String h _ => Ascii.eqb h "#"%char
  end.

Definition parse_assignment (body : string) : option stmt :=
  let (name, rest) := span is_ident_char body in
  match name, drop_blanks rest with
  | String n0 _, String eq rest =>
      if (Ascii.leb "0"%char n0 && Ascii.leb n0 "9"%char)
         || negb (Ascii.eqb eq "="%char) then None
      else
        match drop_blanks rest with
        | String q rest =>
            if Ascii.eqb q quote then
              match read_literal rest with
              | Some (text, after) =>
                  if line_ends after then Some (Assign name text) else None
              | None => None
              end
            else None
        | EmptyString => None
        end
  | _, _ => None
  end.

Definition parse_line (line : string) : option stmt :=
  match drop_blanks line with
  | EmptyString => Some Pass
  | String c _ =>
      if Ascii.eqb c "#"%char then Some Pass
      else if starts_blank line then None
      else parse_assignment line
  end.

(** The source cut at its line feeds. *)
Fixpoint split_lines (s : string) : list string :=
  match s with
  | EmptyString => [EmptyString]
  | String c rest =>
      if Ascii.eqb c LF then EmptyString :: split_lines rest
      else
        match split_lines rest with
        | l :: ls => String c l :: ls
        | [] => [String c EmptyString]
        end
  end.

(** Running the module: each assignment rebinds its name. *)
Fixpoint exec_lines (lines : list string) (globals : gmap string string)
  : option (gmap string string) :=
  match lines with
  | [] => Some globals
  | line :: rest =>
      match parse_line line with
      | Some (Assign name text) => exec_lines rest (<[name := text]> globals)
      | Some Pass => exec_lines rest globals
      | None => None
      end
  end.

(** [from wifi_config import SSID, PASSWORD] against the file system. *)
Definition import_wifi_config (fs : gmap string string) : option (string * string) :=
  match fs !! CREDENTIALS_FILE with
  | None => None
  | Some src =>
      match exec_lines (split_lines src) ∅ with
      | Some globals =>
          match globals !! "SSID", globals !! "PASSWORD" with
          | Some ssid, Some password => Some (ssid, password)
          | _, _ => None
          end
      | None => None
      end
  end.

(** The world a restart begins in: the globals come from the import, the
    file system is the one left behind. *)
Definition restart (n : network) (fs : gmap string string) : option world :=
  match import_wifi_config fs with
  | Some (ssid, password) =>
      Some {| SSID := ssid; PASSWORD := password; net := n;
              files := fs; trace := [] |}
  | None => None
  end.

End Main.

(** ** main.py: the sensor page *)

Module Page.

Import APC1.

(** The module-level [sensor = APC1(id=0, scl=1, sda=0)]: frequency and
    device address are left at their defaults. *)
Definition sensor (b : i2c_bus) : state := __init__ b 0 1 0 100000 None.

Section Index.

(** [Template('index.html').render(data=...)]: the template file is not
    part of the sources, so the rendering is a parameter. *)
Variable render : gmap string reading -> string.

(** The [/] handler: it reads all registers and renders them; it has no
    handler for the exceptions of the read. *)
Definition index (request : Main.request) : M string :=
  sensor_data <- get_all_sensor_data ;;
  ret (render sensor_data).

End Index.

End Page.

(** * Vocabulary of the properties

    The notions the theorems below are stated with: the value of a byte
    string, the state a bulk read has reached, the shape of the traces of
    the connection loop, the strings a literal holds unchanged, and the
    concrete buses, networks and requests the theorems are run on. *)

Import APC1.
Import Main.
Local Open Scope list_scope.

(** The value of a byte string read most significant byte first, as the
    specification words it: each byte weighs 256 to the number of bytes
    after it. *)
Fixpoint big_endian_value (raw : list byte) : Z :=
  match raw with
  | [] => 0
  | b :: rest => Z.of_N (Byte.to_N b) * 256 ^ Z.of_nat (length rest)
                 + big_endian_value rest
  end.

(** [float(z)] is a finite, non-negative float. *)
Definition float_of_int_ok (z : Z) : bool :=
  match float_of_int z with
  | Ok (S754_finite false _ _) | Ok (S754_zero false) => true
  | _ => false
  end.

(** [p] holds of the [n] integers from [z] on. *)
Fixpoint all_from (p : Z -> bool) (n : nat) (z : Z) : bool :=
  match n with
  | O => true
  | S n' => if p z then all_from p n' (z + 1) else false
  end.

(** The names of the rows, in table order. *)
Definition reg_names (regs : list reg_info) : list string := reg_name <$> regs.

(** What every row of the table satisfies. *)
Definition row_wf (reg : reg_info) : Prop :=
  (reg_num_bytes reg = 1 \/ reg_num_bytes reg = 2)
  /\ 0x04 <= reg_address reg <= 0x3A
  /\ (reg_scale reg = Int 1 \/ reg_scale reg = Float lit_0_1).

(** The transaction [get_sensor_data] issues for a row. *)
Definition read_of (self : state) (reg : reg_info) : i2c_read :=
  I2CRead (device_addr self) (reg_address reg) (reg_num_bytes reg).

(** The object after [get_sensor_data] has been called for each of [names]
    in turn, whatever the calls returned. *)
Fixpoint run_decodes (names : list string) (self : state) : state :=
  match names with
  | [] => self
  | name :: rest => run_decodes rest (snd (get_sensor_data name self))
  end.

(** The object as the bulk read finds it when it reaches row [i]. *)
Definition before_row (i : nat) (self : state) : state :=
  run_decodes (take i (reg_names _REG_MAP)) self.

(** A sensor that answers every two-byte read with [0x00 0x64] and every
    other read with [0x07]. *)
Definition steady_bus : i2c_bus :=
  fun _ rd => Ok (if rd_nbytes rd =? 2 then [x00; x64]%byte else [x07]%byte).

(** A sensor that answers every read with the single byte [0x07]. *)
Definition one_byte_bus : i2c_bus := fun _ _ => Ok [x07]%byte.

(** A bus on which the third transaction fails with [EIO]. *)
Definition flaky_bus : i2c_bus :=
  fun before rd =>
    if Nat.eqb (length before) 2 then Raise (OSError 5)
    else Ok [x00; x64]%byte.

(** Two rows of the table: one scaled by [0.1], one by [1]. *)
Definition T_comp : reg_info :=
  RegInfo "T-comp" 0x22 2 (Float lit_0_1) "C" "Compensated Temperature".

Definition PM10 : reg_info :=
  RegInfo "PM10" 0x08 2 (Int 1) "ug/m3" "PM10 Mass Concentration".

(** The world [w] with its trace replaced by [t]. *)
Definition with_trace (w : world) (t : list event) : world :=
  {| SSID := SSID w; PASSWORD := PASSWORD w; net := net w;
     files := files w; trace := t |}.

(** One turn of the loop that finds the station not connected: the poll,
    the second of sleep, the dot. *)
Definition failed_round : list event :=
  [EvIsConnected false; EvSleep (Int 1); EvPrint "."].

(** [n] such turns in a row. *)
Fixpoint failed_rounds (n : nat) : list event :=
  match n with
  | O => []
  | S n' => failed_round ++ failed_rounds n'
  end.

(** What [connect_wifi] does before its loop when the station is not
    connected yet. *)
Definition connect_prefix (w : world) : list event :=
  [EvStaActive true; EvIsConnected false; EvPrint "Connecting to WiFi...";
   EvConnect (SSID w) (PASSWORD w)].

(** The number of status polls in a trace. *)
Fixpoint polls (t : list event) : nat :=
  match t with
  | [] => O
  | EvIsConnected _ :: t' => S (polls t')
  | _ :: t' => polls t'
  end.

(** Every poll but the first comes after exactly one [time.sleep(1)] since
    the poll before it, and nothing else sleeps.  [seen] tells whether a
    poll was met already, [sleeps] counts the sleeps since. *)
Fixpoint paced (seen : bool) (sleeps : nat) (t : list event) : bool :=
  match t with
  | [] => true
  | EvIsConnected _ :: t' =>
      (if seen then Nat.eqb sleeps 1 else true) && paced true O t'
  | EvSleep (Int 1) :: t' => paced seen (S sleeps) t'
  | EvSleep _ :: _ => false
  | _ :: t' => paced seen sleeps t'
  end.

(** The station stays unconnected for the first [n] polls of the loop
    that starts at trace [t]. *)
Definition unconnected_for (n : nat) (w : world) (t : list event) : Prop :=
  forall k, (k < n)%nat -> net_isconnected (net w) (t ++ failed_rounds k) = false.

(** The messages that end a successful [connect_wifi]. *)
Definition connected_messages (ip : string) : list event :=
  [EvPrint (nl +:+ "Connected to WiFi!"); EvPrint ("IP Address: " +:+ ip)].

(** The access point is switched on first thing in [start_ap_mode]. *)
Definition ap_prefix : list event :=
  [EvApActive false; EvApActive true; EvApConfigEssid "AQISetup";
   EvApConfigSecurity 0].

(** A network the station never joins; the access point comes up at once. *)
Definition no_wifi : network :=
  Network (fun _ => false) (fun _ => true)
          (fun _ => "0.0.0.0") (fun _ => "192.168.4.1").

(** A device started with stored credentials and an empty file system. *)
Definition first_boot : world :=
  World "home" "secret" no_wifi ∅ [].

(** The two lines [save_wifi_credentials] writes for two strings. *)
Definition config_text (ssid password : string) : string :=
  "SSID = '" +:+ ssid +:+ "'" +:+ nl +:+ "PASSWORD = '" +:+ password +:+ "'" +:+ nl.

(** The characters a single-quoted literal holds as they are: everything
    but the quote, the backslash, the line breaks and the null character. *)
Definition plain_char (c : ascii) : bool :=
  negb (Ascii.eqb c quote || Ascii.eqb c backslash
        || Ascii.eqb c LF || Ascii.eqb c CR || Ascii.eqb c NUL).

(** A string of such characters only. *)
Fixpoint plain (s : string) : bool :=
  match s with
  | EmptyString => true
  | String c rest => plain_char c && plain rest
  end.

(** Up to the quote that closes it, a written line is plain but for that
    opening quote; cutting lines only needs the absence of line feeds. *)
Fixpoint no_line_feed (s : string) : bool :=
  match s with
  | EmptyString => true
  | String c rest => negb (Ascii.eqb c LF) && no_line_feed rest
  end.

(** The form post of a network whose name holds an apostrophe. *)
Definition apostrophe_request : request :=
  <["ssid" := "John's iPhone"]> (<["password" := "secret"]> ∅).

(** ** Further vocabulary: decoded values as numbers *)

(** The rational number a float stands for; the infinities and NaN, which
    no decode produces, are given 0. *)
Definition Qval (f : spec_float) : Q :=
  match f with
  | S754_finite s m e =>
      (inject_Z (if s then Z.neg m else Z.pos m) * Qpower 2 e)%Q
  | _ => 0%Q
  end.


(** The float [z * 0.1] as [get_sensor_data] computes it for a raw reading
    [z], when it computes one. *)
Definition tenths (z : Z) : option spec_float :=
  match mul (Int z) (Float lit_0_1) with
  | Ok (Float f) => Some f
  | _ => None
  end.

Definition tenths_val (z : Z) : Q :=
  match tenths z with
  | Some f => Qval f
  | None => 0%Q
  end.



Definition tenths_step_up (z : Z) : bool :=
  match Qcompare (tenths_val z) (tenths_val (z + 1)) with
  | Lt => true
  | _ => false
  end.

(** The first register after a row: its address plus its width. *)
Definition reg_end (reg : reg_info) : Z := reg_address reg + reg_num_bytes reg.

(** A bus on which no device answers: every transaction fails with
    [EIO]. *)
Definition dead_bus : i2c_bus := fun _ _ => Raise (OSError 5).

(** A sensor that answers every read with [0x01 0x03], the raw value 259. *)
Definition warm_bus : i2c_bus := fun _ _ => Ok [x01; x03]%byte.

(** ** Further vocabulary: the page and the bootstrap *)

(** A transaction the page may issue: at address 0x12, for a row of the
    table. *)
Definition table_read (rd : i2c_read) : Prop :=
  rd_addr rd = 0x12
  /\ exists reg, reg ∈ _REG_MAP
                 /\ rd_memaddr rd = reg_address reg
                 /\ rd_nbytes rd = reg_num_bytes reg.

(** What holds of the page's sensor object between requests. *)
Definition page_invariant (self : state) : Prop :=
  cls_REG_MAP self = _REG_MAP
  /\ device_addr self = 0x12
  /\ Forall table_read (reads self).

(** The number of [time.sleep] calls in a trace. *)
Fixpoint sleep_count (t : list event) : nat :=
  match t with
  | [] => O
  | EvSleep _ :: t' => S (sleep_count t')
  | _ :: t' => sleep_count t'
  end.

(** The [wlan.connect] calls in a trace, with their arguments. *)
Fixpoint connects (t : list event) : list (string * string) :=
  match t with
  | [] => []
  | EvConnect ssid password :: t' => (ssid, password) :: connects t'
  | _ :: t' => connects t'
  end.

(** The number of times a trace switches the station interface off. *)
Fixpoint sta_off_count (t : list event) : nat :=
  match t with
  | [] => O
  | EvStaActive false :: t' => S (sta_off_count t')
  | _ :: t' => sta_off_count t'
  end.

(** An event on the access-point interface. *)
Definition is_ap_event (e : event) : bool :=
  match e with
  | EvApActive _ | EvApIsActive _ | EvApConfigEssid _ | EvApConfigSecurity _ => true
  | _ => false
  end.

(** [n] turns of the wait in [start_ap_mode] that find the access point
    not up yet: the check and the second of sleep. *)
Fixpoint ap_waits (n : nat) : list event :=
  match n with
  | O => []
  | S n' => [EvApIsActive false; EvSleep (Int 1)] ++ ap_waits n'
  end.

(** The access point stays down for the first [n] checks of the wait that
    starts at trace [t]. *)
Definition ap_down_for (n : nat) (w : world) (t : list event) : Prop :=
  forall k, (k < n)%nat -> net_ap_active (net w) (t ++ ap_waits k) = false.

(** The messages and the server start that end [start_ap_mode]. *)
Definition ap_started (ifconfig : string) : list event :=
  [EvPrint ifconfig;
   EvPrint ("Access Point started, connect to " +:+ dquote
            +:+ "AQI-Setup" +:+ dquote);
   EvServe "0.0.0.0" 80].

(** A network on which the access point never comes up. *)
Definition ap_stuck : network :=
  Network (fun _ => false) (fun _ => false)
          (fun _ => "0.0.0.0") (fun _ => "0.0.0.0").

(** A network the station is on already. *)
Definition joined : network :=
  Network (fun _ => true) (fun _ => true)
          (fun _ => "10.0.0.7") (fun _ => "192.168.4.1").

(** A network whose access point comes up at the third check. *)
Definition slow_ap : network :=
  Network (fun _ => false) (fun t => Nat.leb 8 (length t))
          (fun _ => "0.0.0.0") (fun _ => "192.168.4.1").

(** Two form posts: one complete, one without its [ssid] field. *)
Definition home_request : request :=
  <["ssid" := "home"]> (<["password" := "secret"]> ∅).

Definition nameless_request : request := <["password" := "secret"]> ∅.


(** A form post whose network name is typed with a backslash before its
    apostrophe. *)
Definition escaped_request : request :=
  <["ssid" := "O\'Neill"]> (<["password" := "secret"]> ∅).

(** Three more starts: on a network already joined, with an access point
    slow to come up, with one that never does. *)
Definition online_boot : world := World "home" "secret" joined ∅ [].

Definition ap_boot : world := World "home" "secret" slow_ap ∅ [].

Definition stuck_boot : world := World "home" "secret" ap_stuck ∅ [].

(** * Properties of the register decoder *)

(** ** Big-endian integers *)

Lemma byte_range (b : byte) : 0 <= Z.of_N (Byte.to_N b) < 256.
Proof. pose proof (Byte.to_N_bounded b). lia. Qed.

Lemma from_bytes_fold (raw : list byte) (acc : Z) :
  fold_left (fun a b => a * 256 + Z.of_N (Byte.to_N b)) raw acc
  = acc * 256 ^ Z.of_nat (length raw) + big_endian_value raw.
Proof.
  revert acc. induction raw as [|b rest IH]; intros acc; cbn [fold_left].
  - cbn. lia.
  - rewrite IH. cbn [big_endian_value length].
    rewrite Nat2Z.inj_succ, Z.pow_succ_r by lia. ring.
Qed.

Lemma int_from_bytes_big_value (raw : list byte) :
  int_from_bytes_big raw = big_endian_value raw.
Proof. unfold int_from_bytes_big. rewrite from_bytes_fold. lia. Qed.

Lemma big_endian_value_range (raw : list byte) :
  0 <= big_endian_value raw < 256 ^ Z.of_nat (length raw).
Proof.
  induction raw as [|b rest IH]; cbn [big_endian_value length].
  - cbn. lia.
  - pose proof (byte_range b). rewrite Nat2Z.inj_succ, Z.pow_succ_r by lia. nia.
Qed.

(** ** Converting small integers to float *)

Lemma all_from_spec (p : Z -> bool) (n : nat) (z0 z : Z) :
  all_from p n z0 = true -> z0 <= z < z0 + Z.of_nat n -> p z = true.
Proof.
  revert z0. induction n as [|n IH]; cbn [all_from]; intros z0 Hall Hz; [lia|].
  destruct (p z0) eqn:Hp; [|discriminate].
  destruct (Z.eq_dec z z0) as [->|Hne]; [exact Hp|].
  apply (IH (z0 + 1)); [exact Hall | lia].
Qed.

Lemma float_of_two_bytes (z : Z) :
  0 <= z < 65536 -> exists f, float_of_int z = Ok f.
Proof.
  intros Hz.
  assert (Hall : all_from float_of_int_ok (Z.to_nat 65536) 0 = true)
    by (vm_compute; reflexivity).
  assert (Hin : 0 <= z < 0 + Z.of_nat (Z.to_nat 65536)) by (rewrite Z2Nat.id; lia).
  pose proof (all_from_spec float_of_int_ok _ 0 z Hall Hin) as Hok.
  unfold float_of_int_ok in Hok.
  destruct (float_of_int z) as [f|e]; [eauto | discriminate].
Qed.

(** The two float constants are what their names say: [lit_0_1] is a
    number of the format, lies within half a unit in the last place of one
    tenth (its significand times ten misses [2^56] by 4), and is the
    quotient of [1.0] by [10.0]; [lit_10_0] is [float(10)], ten times
    [2^49] at exponent [-49]. *)
Lemma float_literals_sound :
  valid_binary prec emax lit_0_1 = true
  /\ Z.abs (10 * 7205759403792794 - 2 ^ 56) <= 5
  /\ match float_of_int 1, float_of_int 10 with
     | Ok one, Ok ten => SFdiv prec emax one ten = lit_0_1
     | _, _ => False
     end
  /\ float_of_int 10 = Ok lit_10_0
  /\ 5629499534213120 = 10 * 2 ^ 49.
Proof. repeat split; vm_compute; congruence. Qed.

(** MicroPython on the Pico W computes with binary32 floats; there too
    [100 * 0.1] is [10.0] exactly. *)
Lemma single_precision_100_tenths :
  let to_float z := binary_normalize 24 128 z 0 false in
  SFmul 24 128 (to_float 100) (SFdiv 24 128 (to_float 1) (to_float 10))
  = to_float 10
  /\ to_float 10 = S754_finite false 10485760 (-20)
  /\ 10485760 = 10 * 2 ^ 20.
Proof. repeat split; vm_compute; reflexivity. Qed.

(** ** The table *)

Lemma _REG_MAP_names_NoDup : NoDup (reg_names _REG_MAP).
Proof. apply (bool_decide_unpack _). vm_compute. reflexivity. Qed.

Lemma _REG_MAP_rows_wf : Forall row_wf _REG_MAP.
Proof.
  unfold _REG_MAP.
  repeat (apply List.Forall_cons;
          [unfold row_wf; cbn [reg_num_bytes reg_address reg_scale];
           (split; [|split]);
           first [lia | left; reflexivity | right; reflexivity] |]).
  apply List.Forall_nil.
Qed.

Lemma row_wf_elem (reg : reg_info) : reg ∈ _REG_MAP -> row_wf reg.
Proof. intros Hin. exact (proj1 (Forall_forall _ _) _REG_MAP_rows_wf reg Hin). Qed.

(** ** Looking a name up *)

Lemma fold_insert_absent (regs : list reg_info) (d : gmap string reg_info)
      (name : string) :
  name ∉ reg_names regs ->
  fold_left (fun d reg => <[reg_name reg := reg]> d) regs d !! name = d !! name.
Proof.
  revert d. induction regs as [|r rest IH]; intros d Hnot; cbn [fold_left]; [done|].
  unfold reg_names in *. rewrite fmap_cons in Hnot.
  apply not_elem_of_cons in Hnot as [Hne Hrest].
  rewrite IH by exact Hrest. by rewrite lookup_insert_ne.
Qed.

Lemma fold_insert_present (regs : list reg_info) (d : gmap string reg_info)
      (reg : reg_info) :
  NoDup (reg_names regs) -> reg ∈ regs ->
  fold_left (fun d reg => <[reg_name reg := reg]> d) regs d !! reg_name reg
  = Some reg.
Proof.
  revert d. induction regs as [|r rest IH]; intros d Hnd Hin; cbn [fold_left].
  - by apply elem_of_nil in Hin.
  - unfold reg_names in *. rewrite fmap_cons in Hnd.
    apply NoDup_cons in Hnd as [Hfresh Hnd].
    apply elem_of_cons in Hin as [->|Hin].
    + rewrite fold_insert_absent by exact Hfresh. apply lookup_insert_eq.
    + by apply IH.
Qed.

Lemma reg_map_dict_absent (regs : list reg_info) (name : string) :
  name ∉ reg_names regs -> reg_map_dict regs !! name = None.
Proof. intros Hnot. unfold reg_map_dict. by rewrite fold_insert_absent. Qed.

Lemma reg_map_dict_present (reg : reg_info) :
  reg ∈ _REG_MAP -> reg_map_dict _REG_MAP !! reg_name reg = Some reg.
Proof. apply fold_insert_present, _REG_MAP_names_NoDup. Qed.

(** ** One decode, step by step *)

Lemma get_sensor_data_unknown (self : state) (name : string) :
  reg_map_dict (cls_REG_MAP self) !! name = None ->
  get_sensor_data name self = (Raise (UnknownRegister name), self).
Proof. intros Hnone. unfold get_sensor_data. by rewrite Hnone. Qed.

Lemma get_sensor_data_bus_error (self : state) (name : string) (reg : reg_info)
      (e : exn) :
  reg_map_dict (cls_REG_MAP self) !! name = Some reg ->
  bus self (reads self) (read_of self reg) = Raise e ->
  get_sensor_data name self = (Raise e, log_read (read_of self reg) self).
Proof.
  intros Hreg Hbus. unfold get_sensor_data. rewrite Hreg.
  unfold bind, read_sensor_data, readfrom_mem. cbn zeta.
  unfold read_of in Hbus. by rewrite Hbus.
Qed.

Lemma get_sensor_data_short (self : state) (name : string) (reg : reg_info)
      (raw : list byte) :
  reg_map_dict (cls_REG_MAP self) !! name = Some reg ->
  bus self (reads self) (read_of self reg) = Ok raw ->
  Z.of_nat (length raw) <> reg_num_bytes reg ->
  get_sensor_data name self
  = (Raise (ShortRead (reg_num_bytes reg) (Z.of_nat (length raw))),
     log_read (read_of self reg) self).
Proof.
  intros Hreg Hbus Hlen. unfold get_sensor_data. rewrite Hreg.
  unfold bind, read_sensor_data, readfrom_mem. cbn zeta.
  unfold read_of in Hbus. rewrite Hbus.
  apply Z.eqb_neq in Hlen. by rewrite Hlen.
Qed.

Lemma get_sensor_data_full (self : state) (name : string) (reg : reg_info)
      (raw : list byte) :
  reg_map_dict (cls_REG_MAP self) !! name = Some reg ->
  bus self (reads self) (read_of self reg) = Ok raw ->
  Z.of_nat (length raw) = reg_num_bytes reg ->
  get_sensor_data name self
  = (match mul (Int (int_from_bytes_big raw)) (reg_scale reg) with
     | Ok v => Ok (v, reg_unit reg, reg_description reg)
     | Raise e => Raise e
     end, log_read (read_of self reg) self).
Proof.
  intros Hreg Hbus Hlen. unfold get_sensor_data. rewrite Hreg.
  unfold bind, read_sensor_data, readfrom_mem. cbn zeta.
  unfold read_of in Hbus. rewrite Hbus.
  apply Z.eqb_eq in Hlen. rewrite Hlen. cbn [negb].
  unfold lift, ret. by destruct (mul _ _).
Qed.

(** Whatever a decode does, it leaves the object's fields alone and logs at
    most the one transaction of its row. *)
Lemma get_sensor_data_frame (self : state) (name : string) :
  let self' := snd (get_sensor_data name self) in
  cls_REG_MAP self' = cls_REG_MAP self
  /\ device_addr self' = device_addr self
  /\ bus self' = bus self
  /\ match reg_map_dict (cls_REG_MAP self) !! name with
     | Some reg => reads self' = (reads self ++ [read_of self reg])%list
     | None => reads self' = reads self
     end.
Proof.
  cbn zeta. destruct (reg_map_dict (cls_REG_MAP self) !! name) as [reg|] eqn:Hreg.
  - destruct (bus self (reads self) (read_of self reg)) as [raw|e] eqn:Hbus.
    + destruct (Z.eq_dec (Z.of_nat (length raw)) (reg_num_bytes reg)) as [Hlen|Hlen].
      * by rewrite (get_sensor_data_full _ _ _ _ Hreg Hbus Hlen).
      * by rewrite (get_sensor_data_short _ _ _ _ Hreg Hbus Hlen).
    + by rewrite (get_sensor_data_bus_error _ _ _ _ Hreg Hbus).
  - by rewrite (get_sensor_data_unknown _ _ Hreg).
Qed.

(** ** Decoding one register *)

(** C1.  For every row of the table: when the transaction for the row
    returns exactly as many bytes as the row declares, [get_sensor_data]
    returns the bytes read as a big-endian unsigned integer, multiplied by
    the row's scale, together with the row's unit and description.  For a
    scale of [1] the value is the integer itself; for a scale of [0.1] the
    bytes [0x00 0x64] give the float [10.0] exactly. *)
Theorem get_sensor_data_decodes (self : state) (reg : reg_info) (raw : list byte) :
  cls_REG_MAP self = _REG_MAP ->
  reg ∈ _REG_MAP ->
  bus self (reads self) (read_of self reg) = Ok raw ->
  Z.of_nat (length raw) = reg_num_bytes reg ->
  exists v,
    mul (Int (big_endian_value raw)) (reg_scale reg) = Ok v
    /\ get_sensor_data (reg_name reg) self
       = (Ok (v, reg_unit reg, reg_description reg),
          log_read (read_of self reg) self)
    /\ (reg_scale reg = Int 1 -> v = Int (big_endian_value raw))
    /\ (reg_scale reg = Float lit_0_1 -> raw = [x00; x64]%byte ->
        v = Float lit_10_0).
Proof.
  intros Hcls Hin Hbus Hlen.
  pose proof (row_wf_elem reg Hin) as (Hwidth & _ & Hscale).
  assert (Hrange : 0 <= big_endian_value raw < 65536).
  { pose proof (big_endian_value_range raw) as Hr.
    assert (Hpow : 256 ^ Z.of_nat (length raw) <= 65536).
    { rewrite Hlen. destruct Hwidth as [-> | ->]; cbn; lia. }
    lia. }
  assert (Hreg : reg_map_dict (cls_REG_MAP self) !! reg_name reg = Some reg)
    by (rewrite Hcls; by apply reg_map_dict_present).
  rewrite (get_sensor_data_full _ _ _ _ Hreg Hbus Hlen).
  rewrite int_from_bytes_big_value.
  destruct Hscale as [Hs | Hs]; rewrite Hs.
  - exists (Int (big_endian_value raw)). cbn [mul]. rewrite Z.mul_1_r.
    split; [reflexivity|]. split; [reflexivity|]. split; [done | discriminate].
  - destruct (float_of_two_bytes _ Hrange) as [f Hf].
    exists (Float (SFmul prec emax f lit_0_1)). cbn [mul]. rewrite Hf.
    split; [reflexivity|]. split; [reflexivity|]. split; [discriminate|].
    intros _ ->. vm_compute in Hf. injection Hf as <-. vm_compute. reflexivity.
Qed.

(** C2.  For every row of the table: when the transaction returns a byte
    string whose length is not the declared one, shorter or longer,
    [get_sensor_data] raises the [ShortRead] error and returns no value. *)
Theorem get_sensor_data_short_read (self : state) (reg : reg_info)
        (raw : list byte) :
  cls_REG_MAP self = _REG_MAP ->
  reg ∈ _REG_MAP ->
  bus self (reads self) (read_of self reg) = Ok raw ->
  Z.of_nat (length raw) <> reg_num_bytes reg ->
  fst (get_sensor_data (reg_name reg) self)
  = Raise (ShortRead (reg_num_bytes reg) (Z.of_nat (length raw))).
Proof.
  intros Hcls Hin Hbus Hlen.
  assert (Hreg : reg_map_dict (cls_REG_MAP self) !! reg_name reg = Some reg)
    by (rewrite Hcls; by apply reg_map_dict_present).
  by rewrite (get_sensor_data_short _ _ _ _ Hreg Hbus Hlen).
Qed.

(** C3.  For every name that is not in the ten-row table, [get_sensor_data]
    raises the [UnknownRegister] error and leaves the object as it was: no
    transaction is issued on the bus. *)
Theorem get_sensor_data_unknown_register (self : state) (name : string) :
  cls_REG_MAP self = _REG_MAP ->
  name ∉ reg_names _REG_MAP ->
  get_sensor_data name self = (Raise (UnknownRegister name), self)
  /\ reads (snd (get_sensor_data name self)) = reads self.
Proof.
  intros Hcls Hnot.
  assert (Hnone : reg_map_dict (cls_REG_MAP self) !! name = None)
    by (rewrite Hcls; by apply reg_map_dict_absent).
  by rewrite (get_sensor_data_unknown _ _ Hnone).
Qed.

(** ** The bulk read *)

Lemma reg_names_cons (r : reg_info) (rest : list reg_info) :
  reg_names (r :: rest) = reg_name r :: reg_names rest.
Proof. reflexivity. Qed.

Lemma run_decodes_take_0 (names : list string) (self : state) :
  run_decodes (take 0 names) self = self.
Proof. reflexivity. Qed.

Lemma run_decodes_take_S (i : nat) (name : string) (names : list string)
      (self : state) :
  run_decodes (take (S i) (name :: names)) self
  = run_decodes (take i names) (snd (get_sensor_data name self)).
Proof. reflexivity. Qed.

Lemma get_all_loop_ok (regs : list reg_info) :
  forall (acc : gmap string reading) (self : state),
  (forall i name, reg_names regs !! i = Some name ->
     exists r, fst (get_sensor_data name
                      (run_decodes (take i (reg_names regs)) self)) = Ok r) ->
  exists d,
    get_all_loop regs acc self = (Ok d, run_decodes (reg_names regs) self)
    /\ dom d = dom acc ∪ list_to_set (reg_names regs)
    /\ (NoDup (reg_names regs) ->
        forall i name, reg_names regs !! i = Some name ->
          exists v u ds,
            fst (get_sensor_data name
                   (run_decodes (take i (reg_names regs)) self)) = Ok (v, u, ds)
            /\ d !! name = Some (Reading v u ds))
    /\ (forall k, k ∉ reg_names regs -> d !! k = acc !! k).
Proof.
  induction regs as [|r rest IH]; intros acc self Hall.
  - exists acc. cbn. split; [done|].
    split; [symmetry; apply (right_id_L ∅ (∪))|]. split; [|done].
    intros _ i name Hi. by rewrite lookup_nil in Hi.
  - rewrite reg_names_cons in *.
    destruct (Hall 0%nat (reg_name r) eq_refl) as [[[v u] ds] Hhead].
    rewrite run_decodes_take_0 in Hhead.
    destruct (get_sensor_data (reg_name r) self) as [res self1] eqn:Hrun.
    cbn [fst] in Hhead. subst res.
    destruct (IH (<[reg_name r := Reading v u ds]> acc) self1) as
      (d & Hloop & Hdom & Hrows & Hrest).
    { intros i name Hi. specialize (Hall (S i) name Hi).
      rewrite run_decodes_take_S, Hrun in Hall. exact Hall. }
    exists d. split; [|split; [|split]].
    + cbn [get_all_loop run_decodes].
      unfold bind. rewrite Hrun. cbn [snd]. exact Hloop.
    + rewrite Hdom, dom_insert_L. cbn [list_to_set].
      rewrite (comm_L (∪) {[reg_name r]} (dom acc)).
      by rewrite <- (assoc_L (∪)).
    + intros Hnd i name Hi.
      apply NoDup_cons in Hnd as [Hfresh Hnd].
      destruct i as [|i].
      * cbn in Hi. injection Hi as <-. exists v, u, ds.
        rewrite run_decodes_take_0, Hrun. split; [done|].
        rewrite Hrest by exact Hfresh. apply lookup_insert_eq.
      * rewrite run_decodes_take_S, Hrun. by apply Hrows.
    + intros k Hk.
      apply not_elem_of_cons in Hk as [Hne Hk].
      rewrite Hrest by exact Hk. by rewrite lookup_insert_ne.
Qed.

Lemma get_all_loop_fail (regs : list reg_info) :
  forall (acc : gmap string reading) (self : state) (i : nat) (name : string)
         (e : exn),
  reg_names regs !! i = Some name ->
  (forall j name', (j < i)%nat -> reg_names regs !! j = Some name' ->
     exists r, fst (get_sensor_data name'
                      (run_decodes (take j (reg_names regs)) self)) = Ok r) ->
  fst (get_sensor_data name (run_decodes (take i (reg_names regs)) self))
  = Raise e ->
  get_all_loop regs acc self
  = (Raise e, run_decodes (take (S i) (reg_names regs)) self).
Proof.
  induction regs as [|r rest IH]; intros acc self i name e Hi Hbefore Hfail.
  - cbn in Hi. discriminate.
  - rewrite reg_names_cons in *. rewrite run_decodes_take_S.
    cbn [get_all_loop]. unfold bind.
    destruct i as [|i].
    + cbn in Hi. injection Hi as <-. rewrite run_decodes_take_0 in *.
      destruct (get_sensor_data (reg_name r) self) as [res self1].
      cbn [fst] in Hfail. by subst res.
    + destruct (Hbefore 0%nat (reg_name r) ltac:(lia) eq_refl) as [[[v u] ds] Hhead].
      rewrite run_decodes_take_0 in Hhead.
      rewrite run_decodes_take_S in Hfail.
      destruct (get_sensor_data (reg_name r) self) as [res self1] eqn:Hrun.
      cbn [fst] in Hhead. subst res. cbn [snd] in *.
      apply (IH _ self1 i name e); [exact Hi | | exact Hfail].
      intros j name' Hj Hlook.
      specialize (Hbefore (S j) name' ltac:(lia) Hlook).
      rewrite run_decodes_take_S, Hrun in Hbefore. exact Hbefore.
Qed.

(** The fields a run of decodes leaves alone, and the transactions it logs:
    one per row, in table order. *)
Lemma run_decodes_frame (regs : list reg_info) :
  forall self : state,
  cls_REG_MAP self = _REG_MAP ->
  Forall (fun reg => reg ∈ _REG_MAP) regs ->
  cls_REG_MAP (run_decodes (reg_names regs) self) = _REG_MAP
  /\ device_addr (run_decodes (reg_names regs) self) = device_addr self
  /\ bus (run_decodes (reg_names regs) self) = bus self
  /\ reads (run_decodes (reg_names regs) self)
     = (reads self ++ (read_of self <$> regs))%list.
Proof.
  induction regs as [|r rest IH]; intros self Hcls Hin.
  - cbn. by rewrite app_nil_r.
  - apply Forall_cons in Hin as [Hr Hrest].
    rewrite reg_names_cons. cbn [run_decodes].
    pose proof (get_sensor_data_frame self (reg_name r)) as (Hc & Hd & Hb & Hlog).
    rewrite Hcls, (reg_map_dict_present r Hr) in Hlog.
    destruct (IH (snd (get_sensor_data (reg_name r) self))) as (Hc' & Hd' & Hb' & Hl');
      [congruence | exact Hrest |].
    rewrite Hc', Hd', Hb', Hl', Hd, Hb, Hlog.
    repeat split; try done. rewrite <- app_assoc. cbn [app].
    f_equal. f_equal. unfold read_of. by rewrite Hd.
Qed.

Lemma get_all_loop_frame (regs : list reg_info) :
  forall (acc : gmap string reading) (self : state),
  cls_REG_MAP (snd (get_all_loop regs acc self)) = cls_REG_MAP self
  /\ device_addr (snd (get_all_loop regs acc self)) = device_addr self.
Proof.
  induction regs as [|r rest IH]; intros acc self; [done|].
  cbn [get_all_loop]. unfold bind.
  pose proof (get_sensor_data_frame self (reg_name r)) as (Hc & Hd & _).
  destruct (get_sensor_data (reg_name r) self) as [[[[v u] ds]|e] self1];
    cbn [snd] in *; [|done].
  destruct (IH (<[reg_name r := Reading v u ds]> acc) self1) as [Hc' Hd'].
  split; congruence.
Qed.

(** On a bus whose answers do not depend on what was read before, a decode
    returns the same whenever it is made. *)
Lemma get_sensor_data_result_stable (s1 s2 : state) (name : string) :
  cls_REG_MAP s1 = cls_REG_MAP s2 ->
  device_addr s1 = device_addr s2 ->
  bus s1 = bus s2 ->
  (forall h1 h2 rd, bus s1 h1 rd = bus s1 h2 rd) ->
  fst (get_sensor_data name s1) = fst (get_sensor_data name s2).
Proof.
  intros Hc Hd Hb Hind. unfold get_sensor_data. rewrite Hc.
  destruct (reg_map_dict (cls_REG_MAP s2) !! name) as [reg|]; [|done].
  unfold bind, read_sensor_data, readfrom_mem. cbn zeta.
  rewrite <- Hb, <- Hd, (Hind (reads s2) (reads s1)).
  destruct (bus s1 (reads s1) _) as [raw|e]; [|done].
  destruct (negb _); [done|].
  unfold lift, ret. by destruct (mul _ _).
Qed.

Lemma reg_names_lookup (i : nat) (reg : reg_info) :
  _REG_MAP !! i = Some reg -> reg_names _REG_MAP !! i = Some (reg_name reg).
Proof. intros Hi. unfold reg_names. by rewrite list_lookup_fmap, Hi. Qed.

Lemma reg_names_lookup_inv (i : nat) (name : string) :
  reg_names _REG_MAP !! i = Some name ->
  exists reg, _REG_MAP !! i = Some reg /\ name = reg_name reg.
Proof.
  unfold reg_names. rewrite list_lookup_fmap. intros Hi.
  apply fmap_Some in Hi as (reg & Hreg & ->). eauto.
Qed.

(** C4.  When the decode of every row succeeds as the bulk read reaches it,
    [get_all_sensor_data] returns a mapping with one entry per row of the
    table, keyed by the row's name: it has as many entries as the table has
    rows, its keys are the names of the table, and the entry under a name
    holds the value, unit and description that [get_sensor_data] returned
    for that name.  On a bus whose answers do not depend on earlier reads
    that is what [get_sensor_data] returns for the name on the object as
    it stood before the bulk read. *)
Theorem get_all_sensor_data_complete (self : state) :
  cls_REG_MAP self = _REG_MAP ->
  (forall i reg, _REG_MAP !! i = Some reg ->
     exists r, fst (get_sensor_data (reg_name reg) (before_row i self)) = Ok r) ->
  exists d,
    fst (get_all_sensor_data self) = Ok d
    /\ size d = length _REG_MAP
    /\ dom d = list_to_set (reg_names _REG_MAP)
    /\ (forall i reg, _REG_MAP !! i = Some reg ->
        exists v u ds,
          fst (get_sensor_data (reg_name reg) (before_row i self)) = Ok (v, u, ds)
          /\ d !! reg_name reg = Some (Reading v u ds))
    /\ ((forall h1 h2 rd, bus self h1 rd = bus self h2 rd) ->
        forall reg, reg ∈ _REG_MAP ->
        exists v u ds,
          fst (get_sensor_data (reg_name reg) self) = Ok (v, u, ds)
          /\ d !! reg_name reg = Some (Reading v u ds)).
Proof.
  intros Hcls Hall.
  destruct (get_all_loop_ok _REG_MAP ∅ self) as (d & Hloop & Hdom & Hrows & _).
  { intros i name Hi. apply reg_names_lookup_inv in Hi as (reg & Hreg & ->).
    exact (Hall i reg Hreg). }
  specialize (Hrows _REG_MAP_names_NoDup).
  assert (Hrows' : forall i reg, _REG_MAP !! i = Some reg ->
            exists v u ds,
              fst (get_sensor_data (reg_name reg) (before_row i self)) = Ok (v, u, ds)
              /\ d !! reg_name reg = Some (Reading v u ds)).
  { intros i reg Hi. exact (Hrows i (reg_name reg) (reg_names_lookup i reg Hi)). }
  rewrite dom_empty_L, (left_id_L ∅ (∪)) in Hdom.
  exists d. unfold get_all_sensor_data. rewrite Hcls, Hloop.
  split; [done|]. split; [|split; [exact Hdom|split; [exact Hrows'|]]].
  - rewrite <- size_dom, Hdom, size_list_to_set by exact _REG_MAP_names_NoDup.
    unfold reg_names. by rewrite length_fmap.
  - intros Hind reg Hin.
    apply list_elem_of_lookup in Hin as [i Hi].
    destruct (Hrows' i reg Hi) as (v & u & ds & Hget & Hd).
    exists v, u, ds. split; [|exact Hd].
    rewrite <- Hget. unfold before_row.
    assert (Hsub : Forall (fun reg => reg ∈ _REG_MAP) (take i _REG_MAP)).
    { apply Forall_take, Forall_forall. auto. }
    pose proof (run_decodes_frame (take i _REG_MAP) self Hcls Hsub)
      as (Hc & Hd' & Hb & _).
    unfold reg_names in *. rewrite fmap_take in Hc, Hd', Hb.
    apply get_sensor_data_result_stable;
      [congruence | congruence | congruence | exact Hind].
Qed.

(** C9.  When the decode of a row fails during the bulk read, after the
    rows before it succeeded, [get_all_sensor_data] raises that very
    failure and returns no mapping; the transactions issued are those of
    the rows up to and including the failing one, so no later register is
    read. *)
Theorem get_all_sensor_data_aborts (self : state) (i : nat) (reg : reg_info)
        (e : exn) :
  cls_REG_MAP self = _REG_MAP ->
  _REG_MAP !! i = Some reg ->
  (forall j reg', (j < i)%nat -> _REG_MAP !! j = Some reg' ->
     exists r, fst (get_sensor_data (reg_name reg') (before_row j self)) = Ok r) ->
  fst (get_sensor_data (reg_name reg) (before_row i self)) = Raise e ->
  fst (get_all_sensor_data self) = Raise e
  /\ reads (snd (get_all_sensor_data self))
     = (reads self ++ (read_of self <$> take (S i) _REG_MAP))%list.
Proof.
  intros Hcls Hi Hbefore Hfail.
  unfold get_all_sensor_data. rewrite Hcls.
  rewrite (get_all_loop_fail _REG_MAP ∅ self i (reg_name reg) e).
  - split; [done|]. cbn [snd].
    assert (Hsub : Forall (fun reg => reg ∈ _REG_MAP) (take (S i) _REG_MAP)).
    { apply Forall_take, Forall_forall. auto. }
    pose proof (run_decodes_frame (take (S i) _REG_MAP) self Hcls Hsub)
      as (_ & _ & _ & Hlog).
    unfold reg_names in *. by rewrite fmap_take in Hlog.
  - by apply reg_names_lookup.
  - intros j name' Hj Hlook.
    apply reg_names_lookup_inv in Hlook as (reg' & Hreg' & ->).
    exact (Hbefore j reg' Hj Hreg').
  - exact Hfail.
Qed.

(** ** The table and the constructor *)

(** C8.  [_REG_MAP] has exactly ten rows; every row's width is 1 or 2 and
    every row's address lies between 0x04 and 0x3A; the constructor takes
    the table as it is, and no method of the sensor class changes it. *)
Theorem _REG_MAP_fixed :
  length _REG_MAP = 10%nat
  /\ Forall (fun reg => (reg_num_bytes reg = 1 \/ reg_num_bytes reg = 2)
                        /\ 0x04 <= reg_address reg <= 0x3A) _REG_MAP
  /\ (forall b id scl sda freq addr,
        cls_REG_MAP (__init__ b id scl sda freq addr) = _REG_MAP)
  /\ (forall self, get_reg_map self = (Ok (cls_REG_MAP self), self))
  /\ (forall self register num_bytes,
        cls_REG_MAP (snd (read_sensor_data register num_bytes self))
        = cls_REG_MAP self)
  /\ (forall self name,
        cls_REG_MAP (snd (get_sensor_data name self)) = cls_REG_MAP self)
  /\ (forall self,
        cls_REG_MAP (snd (get_all_sensor_data self)) = cls_REG_MAP self).
Proof.
  split; [reflexivity|]. split.
  { eapply Forall_impl; [exact _REG_MAP_rows_wf|].
    intros reg (Hw & Ha & _). by split. }
  split; [reflexivity|]. split; [reflexivity|]. split; [reflexivity|]. split.
  - intros self name. apply (get_sensor_data_frame self name).
  - intros self. unfold get_all_sensor_data. apply get_all_loop_frame.
Qed.

(** C10.  The constructor selects [device_addr or 0x12]: the argument when
    it is a non-zero integer, [0x12] when it is [0] or left out.  The
    selected address is therefore never 0, and it is the address of every
    transaction a bulk read on the new object issues. *)
Theorem init_device_addr (b : i2c_bus) (id scl sda freq : Z) (arg : option Z) :
  device_addr (__init__ b id scl sda freq (Some 0)) = 0x12
  /\ device_addr (__init__ b id scl sda freq None) = 0x12
  /\ (forall v, v <> 0 -> device_addr (__init__ b id scl sda freq (Some v)) = v)
  /\ device_addr (__init__ b id scl sda freq arg) <> 0
  /\ (forall rd,
        rd ∈ reads (snd (get_all_sensor_data (__init__ b id scl sda freq arg))) ->
        rd_addr rd = device_addr (__init__ b id scl sda freq arg)
        /\ rd_addr rd <> 0).
Proof.
  assert (Hnz : device_addr (__init__ b id scl sda freq arg) <> 0).
  { cbn [__init__ device_addr]. unfold or_default, _DEFAULT_DEVICE_ADDR.
    destruct arg as [v|]; [|lia]. destruct (Z.eqb_spec v 0); lia. }
  split; [reflexivity|]. split; [reflexivity|]. split; [|split; [exact Hnz|]].
  - intros v Hv. cbn [__init__ device_addr]. unfold or_default.
    by destruct (Z.eqb_spec v 0).
  - set (self := __init__ b id scl sda freq arg) in *.
    assert (Hgen : forall regs acc s rd,
              rd ∈ reads (snd (get_all_loop regs acc s)) ->
              rd ∈ reads s \/ rd_addr rd = device_addr s).
    { induction regs as [|r rest IH]; intros acc s rd Hrd; [by left|].
      cbn [get_all_loop] in Hrd. unfold bind in Hrd.
      pose proof (get_sensor_data_frame s (reg_name r)) as (_ & Hd & _ & Hlog).
      destruct (get_sensor_data (reg_name r) s) as [[[[v u] ds]|e] s1];
        cbn [snd] in *.
      - apply IH in Hrd. rewrite Hd in Hrd.
        destruct Hrd as [Hrd|Hrd]; [|by right].
        destruct (reg_map_dict (cls_REG_MAP s) !! reg_name r) as [reg|];
          rewrite Hlog in Hrd; [|by left].
        apply elem_of_app in Hrd as [Hrd|Hrd]; [by left|].
        apply list_elem_of_singleton in Hrd as ->. by right.
      - destruct (reg_map_dict (cls_REG_MAP s) !! reg_name r) as [reg|];
          rewrite Hlog in Hrd; [|by left].
        apply elem_of_app in Hrd as [Hrd|Hrd]; [by left|].
        apply list_elem_of_singleton in Hrd as ->. by right. }
    intros rd Hrd. unfold get_all_sensor_data in Hrd.
    apply Hgen in Hrd as [Hrd|Hrd].
    + cbn in Hrd. by apply elem_of_nil in Hrd.
    + split; [exact Hrd|]. by rewrite Hrd.
Qed.

(** ** The theorems at work on concrete buses *)

Lemma T_comp_in_table : T_comp ∈ _REG_MAP.
Proof. unfold _REG_MAP, T_comp. do 5 apply list_elem_of_further. apply list_elem_of_here. Defined.

Lemma PM10_in_table : PM10 ∈ _REG_MAP.
Proof. unfold _REG_MAP, PM10. do 2 apply list_elem_of_further. apply list_elem_of_here. Defined.

Lemma get_sensor_data_decodes_witness :
  exists v,
    mul (Int (big_endian_value [x00; x64]%byte)) (reg_scale T_comp) = Ok v
    /\ get_sensor_data (reg_name T_comp) (default_init steady_bus)
       = (Ok (v, reg_unit T_comp, reg_description T_comp),
          log_read (read_of (default_init steady_bus) T_comp)
                   (default_init steady_bus))
    /\ (reg_scale T_comp = Int 1 -> v = Int (big_endian_value [x00; x64]%byte))
    /\ (reg_scale T_comp = Float lit_0_1 -> [x00; x64]%byte = [x00; x64]%byte ->
        v = Float lit_10_0).
Proof.
  apply (get_sensor_data_decodes (default_init steady_bus) T_comp [x00; x64]%byte).
  - reflexivity.
  - exact T_comp_in_table.
  - reflexivity.
  - reflexivity.
Defined.

Lemma get_sensor_data_short_read_witness :
  fst (get_sensor_data (reg_name PM10) (default_init one_byte_bus))
  = Raise (ShortRead (reg_num_bytes PM10) (Z.of_nat (length [x07]%byte))).
Proof.
  apply (get_sensor_data_short_read (default_init one_byte_bus) PM10 [x07]%byte).
  - reflexivity.
  - exact PM10_in_table.
  - reflexivity.
  - cbn. lia.
Defined.

Lemma get_sensor_data_unknown_register_witness :
  get_sensor_data "CO" (default_init steady_bus)
  = (Raise (UnknownRegister "CO"), default_init steady_bus)
  /\ reads (snd (get_sensor_data "CO" (default_init steady_bus)))
     = reads (default_init steady_bus).
Proof.
  apply (get_sensor_data_unknown_register (default_init steady_bus) "CO").
  - reflexivity.
  - apply (bool_decide_unpack _). vm_compute. reflexivity.
Defined.

Lemma steady_bus_all_rows_decode (i : nat) (reg : reg_info) :
  _REG_MAP !! i = Some reg ->
  exists r, fst (get_sensor_data (reg_name reg)
                   (before_row i (default_init steady_bus))) = Ok r.
Proof.
  intros Hi.
  do 10 (destruct i as [|i];
         [injection Hi as <-; eexists; vm_compute; reflexivity|]).
  cbn in Hi. discriminate.
Defined.

Lemma get_all_sensor_data_complete_witness :
  exists d,
    fst (get_all_sensor_data (default_init steady_bus)) = Ok d
    /\ size d = length _REG_MAP
    /\ dom d = list_to_set (reg_names _REG_MAP)
    /\ (forall i reg, _REG_MAP !! i = Some reg ->
        exists v u ds,
          fst (get_sensor_data (reg_name reg)
                 (before_row i (default_init steady_bus))) = Ok (v, u, ds)
          /\ d !! reg_name reg = Some (Reading v u ds))
    /\ ((forall h1 h2 rd, bus (default_init steady_bus) h1 rd
                          = bus (default_init steady_bus) h2 rd) ->
        forall reg, reg ∈ _REG_MAP ->
        exists v u ds,
          fst (get_sensor_data (reg_name reg) (default_init steady_bus))
          = Ok (v, u, ds)
          /\ d !! reg_name reg = Some (Reading v u ds)).
Proof.
  apply (get_all_sensor_data_complete (default_init steady_bus)).
  - reflexivity.
  - exact steady_bus_all_rows_decode.
Defined.

Lemma flaky_bus_first_rows_decode (j : nat) (reg' : reg_info) :
  (j < 2)%nat -> _REG_MAP !! j = Some reg' ->
  exists r, fst (get_sensor_data (reg_name reg')
                   (before_row j (default_init flaky_bus))) = Ok r.
Proof.
  intros Hj Hlook.
  do 2 (destruct j as [|j];
        [injection Hlook as <-; eexists; vm_compute; reflexivity|]).
  lia.
Defined.

Lemma get_all_sensor_data_aborts_witness :
  fst (get_all_sensor_data (default_init flaky_bus)) = Raise (OSError 5)
  /\ reads (snd (get_all_sensor_data (default_init flaky_bus)))
     = (reads (default_init flaky_bus)
        ++ (read_of (default_init flaky_bus) <$> take 3 _REG_MAP))%list.
Proof.
  apply (get_all_sensor_data_aborts (default_init flaky_bus) 2 PM10 (OSError 5)).
  - reflexivity.
  - reflexivity.
  - exact flaky_bus_first_rows_decode.
  - vm_compute. reflexivity.
Defined.

(** * Properties of the Wi-Fi bootstrap *)

(** ** Traces of the connection loop *)

Lemma emit_with_trace (e : event) (w : world) :
  emit e w = with_trace w (trace w ++ [e]).
Proof. reflexivity. Qed.

(** A bounded search: either none of the first [n] answers is [true], or
    there is a first one that is. *)
Lemma first_true (f : nat -> bool) (n : nat) :
  (forall k, (k < n)%nat -> f k = false)
  \/ exists j, (j < n)%nat /\ f j = true /\ forall k, (k < j)%nat -> f k = false.
Proof.
  induction n as [|n [Hnone | (j & Hj & Htrue & Hbefore)]].
  - left. intros k Hk. lia.
  - destruct (f n) eqn:Hn.
    + right. exists n. repeat split; [lia | exact Hn | exact Hnone].
    + left. intros k Hk. destruct (Nat.eq_dec k n) as [->|]; [exact Hn|].
      apply Hnone. lia.
  - right. exists j. repeat split; [lia | exact Htrue | exact Hbefore].
Qed.

(** The loop entered with [curr_attempt] attempts used and enough fuel for
    the rest of the budget: it gives up after the remaining attempts when
    the station never connects. *)
Lemma connect_loop_gives_up (fuel : nat) :
  forall (curr_attempt : Z) (w : world) (n : nat),
  0 <= curr_attempt ->
  Z.of_nat n = max_attempts - curr_attempt ->
  (0 < n <= fuel)%nat ->
  unconnected_for n w (trace w) ->
  connect_loop fuel curr_attempt w
  = Some (Raise wifi_error,
          with_trace w (trace w ++ failed_rounds n ++ [EvStaActive false])).
Proof.
  induction fuel as [|fuel IH]; intros ca w n Hca Hn Hfuel Hun; [lia|].
  cbn [connect_loop]. unfold isconnected.
  pose proof (Hun 0%nat ltac:(lia)) as H0. cbn [failed_rounds] in H0.
  rewrite app_nil_r in H0. rewrite H0. cbn [negb].
  destruct (Z.geb_spec (ca + 1) max_attempts) as [Hge | Hlt].
  - assert (n = 1%nat) by (unfold max_attempts in *; lia). subst n.
    rewrite !emit_with_trace. unfold with_trace. cbn [trace SSID PASSWORD net files].
    cbn [failed_rounds failed_round]. rewrite <- !app_assoc. reflexivity.
  - destruct n as [|n]; [lia|].
    rewrite (IH (ca + 1) _ n); [| lia | unfold max_attempts in *; lia
                                | unfold max_attempts in *; lia |].
    + rewrite !emit_with_trace. unfold with_trace.
      cbn [trace SSID PASSWORD net files].
      cbn [failed_rounds failed_round]. rewrite <- !app_assoc. reflexivity.
    + intros k Hk. rewrite !emit_with_trace. unfold with_trace.
      cbn [trace net]. specialize (Hun (S k) ltac:(lia)).
      cbn [failed_rounds failed_round] in Hun.
      rewrite <- !app_assoc. exact Hun.
Qed.

(** It leaves with success at the first poll that finds the station
    connected, if that poll is within the budget. *)
Lemma connect_loop_connects (fuel : nat) :
  forall (curr_attempt : Z) (w : world) (j : nat),
  0 <= curr_attempt ->
  Z.of_nat j < max_attempts - curr_attempt ->
  (j < fuel)%nat ->
  unconnected_for j w (trace w) ->
  net_isconnected (net w) (trace w ++ failed_rounds j) = true ->
  connect_loop fuel curr_attempt w
  = Some (Ok tt,
          with_trace w (trace w ++ failed_rounds j ++ [EvIsConnected true])).
Proof.
  induction fuel as [|fuel IH]; intros ca w j Hca Hj Hfuel Hun Hyes; [lia|].
  cbn [connect_loop]. unfold isconnected.
  destruct j as [|j].
  - cbn [failed_rounds] in Hyes. rewrite app_nil_r in Hyes. rewrite Hyes.
    cbn [negb]. rewrite emit_with_trace. reflexivity.
  - pose proof (Hun 0%nat ltac:(lia)) as H0. cbn [failed_rounds] in H0.
    rewrite app_nil_r in H0. rewrite H0. cbn [negb].
    destruct (Z.geb_spec (ca + 1) max_attempts) as [Hge | Hlt]; [lia|].
    rewrite (IH (ca + 1) _ j); [| lia | lia | lia | |].
    + rewrite !emit_with_trace. unfold with_trace.
      cbn [trace SSID PASSWORD net files].
      cbn [failed_rounds failed_round]. rewrite <- !app_assoc. reflexivity.
    + intros k Hk. rewrite !emit_with_trace. unfold with_trace.
      cbn [trace net]. specialize (Hun (S k) ltac:(lia)).
      cbn [failed_rounds failed_round] in Hun.
      rewrite <- !app_assoc. exact Hun.
    + rewrite !emit_with_trace. unfold with_trace. cbn [trace net].
      cbn [failed_rounds failed_round] in Hyes.
      rewrite <- !app_assoc. exact Hyes.
Qed.

(** Every run of [connect_wifi] with fuel for the whole budget is one of
    three: the station was connected already; it never connected within ten
    polls; it connected at poll [j + 1] of the loop. *)
Lemma connect_wifi_cases (fuel : nat) (w : world) :
  (10 <= fuel)%nat ->
  (net_isconnected (net w) (trace w ++ [EvStaActive true]) = true
   /\ exists ip,
        connect_wifi fuel w
        = Some (Ok tt, with_trace w (trace w ++ [EvStaActive true; EvIsConnected true]
                                             ++ connected_messages ip)))
  \/ (net_isconnected (net w) (trace w ++ [EvStaActive true]) = false
      /\ unconnected_for 10 w (trace w ++ connect_prefix w)
      /\ connect_wifi fuel w
         = Some (Raise wifi_error,
                 with_trace w (trace w ++ connect_prefix w
                                       ++ failed_rounds 10 ++ [EvStaActive false])))
  \/ (net_isconnected (net w) (trace w ++ [EvStaActive true]) = false
      /\ exists j ip,
           (j < 10)%nat
           /\ unconnected_for j w (trace w ++ connect_prefix w)
           /\ net_isconnected (net w)
                (trace w ++ connect_prefix w ++ failed_rounds j) = true
           /\ connect_wifi fuel w
              = Some (Ok tt,
                      with_trace w (trace w ++ connect_prefix w
                                            ++ failed_rounds j
                                            ++ [EvIsConnected true]
                                            ++ connected_messages ip))).
Proof.
  intros Hfuel. unfold connect_wifi, isconnected.
  rewrite !emit_with_trace. cbn [trace net with_trace SSID PASSWORD files].
  destruct (net_isconnected (net w) (trace w ++ [EvStaActive true])) eqn:Hfirst;
    cbn [negb].
  - left. split; [reflexivity|]. eexists.
    rewrite !emit_with_trace. unfold with_trace, connected_messages.
    cbn [trace net SSID PASSWORD files]. rewrite <- !app_assoc. reflexivity.
  - right.
    set (w4 := with_trace w (trace w ++ connect_prefix w)).
    match goal with
    | |- context [connect_loop fuel 0 ?x] =>
        replace x with w4
          by (unfold w4, with_trace, connect_prefix;
              cbn [trace SSID PASSWORD net files];
              by rewrite <- !app_assoc)
    end.
    destruct (first_true
                (fun k => net_isconnected (net w)
                            (trace w ++ connect_prefix w ++ failed_rounds k)) 10)
      as [Hnone | (j & Hj & Hyes & Hbefore)].
    + left. split; [reflexivity|].
      assert (Hun : unconnected_for 10 w (trace w ++ connect_prefix w)).
      { intros k Hk. rewrite <- app_assoc. by apply Hnone. }
      split; [exact Hun|].
      rewrite (connect_loop_gives_up fuel 0 w4 10);
        [| lia | reflexivity | lia | exact Hun].
      unfold w4, with_trace. cbn [trace SSID PASSWORD net files].
      by rewrite <- !app_assoc.
    + right. split; [reflexivity|].
      assert (Hun : unconnected_for j w (trace w ++ connect_prefix w)).
      { intros k Hk. rewrite <- app_assoc. by apply Hbefore. }
      exists j. eexists. split; [exact Hj|]. split; [exact Hun|].
      split; [exact Hyes|].
      rewrite (connect_loop_connects fuel 0 w4 j);
        [| lia | unfold max_attempts; lia | lia | exact Hun
         | cbn [w4 with_trace trace net]; by rewrite <- app_assoc].
      rewrite !emit_with_trace. unfold w4, with_trace, connected_messages.
      cbn [trace SSID PASSWORD net files]. rewrite <- !app_assoc. reflexivity.
Qed.

Lemma polls_failed_rounds (j : nat) (rest : list event) :
  polls (failed_rounds j ++ rest) = (j + polls rest)%nat.
Proof. induction j as [|j IH]; [reflexivity|]. cbn. by rewrite IH. Qed.

Lemma paced_failed_rounds (j : nat) (rest : list event) :
  paced true 1 (failed_rounds j ++ rest) = paced true 1 rest.
Proof. induction j as [|j IH]; [reflexivity|]. cbn. exact IH. Qed.

Lemma paced_from_start (j : nat) (rest : list event) :
  paced true 1 rest = true -> paced false 0 rest = true ->
  paced false 0 (failed_rounds j ++ rest) = true.
Proof.
  intros Hlater Hstart. destruct j as [|j]; [exact Hstart|].
  cbn. by rewrite paced_failed_rounds.
Qed.

(** C5.  When the station is not connected yet, [connect_wifi] asks for a
    connection and then polls the status in its loop at most ten times,
    with exactly one [time.sleep(1)] between one poll and the next; it
    raises [WifiConnectionError] exactly when all ten polls find the station
    unconnected, and otherwise returns normally. *)
Theorem connect_wifi_budget (fuel : nat) (w : world) :
  (10 <= fuel)%nat ->
  net_isconnected (net w) (trace w ++ [EvStaActive true]) = false ->
  exists r w' attempts,
    connect_wifi fuel w = Some (r, w')
    /\ trace w' = trace w ++ connect_prefix w ++ attempts
    /\ (polls attempts <= 10)%nat
    /\ paced false 0 attempts = true
    /\ (r = Raise wifi_error \/ r = Ok tt)
    /\ (r = Raise wifi_error <->
        unconnected_for 10 w (trace w ++ connect_prefix w))
    /\ (r = Raise wifi_error -> polls attempts = 10%nat).
Proof.
  intros Hfuel Hfirst.
  destruct (connect_wifi_cases fuel w Hfuel)
    as [[Hyes _] | [(_ & Hun & Hrun) | (_ & j & ip & Hj & Hun & Hyes & Hrun)]].
  - congruence.
  - exists (Raise wifi_error). eexists.
    exists (failed_rounds 10 ++ [EvStaActive false]).
    split; [exact Hrun|]. split; [reflexivity|].
    split; [rewrite polls_failed_rounds; cbn; lia|].
    split; [by apply paced_from_start|].
    split; [by left|]. split; [done|].
    intros _. by rewrite polls_failed_rounds.
  - exists (Ok tt). eexists.
    exists (failed_rounds j ++ [EvIsConnected true] ++ connected_messages ip).
    split; [exact Hrun|]. split; [reflexivity|].
    split; [rewrite polls_failed_rounds; cbn; lia|].
    split; [by apply paced_from_start|].
    split; [by right|]. split; [|discriminate].
    split; [discriminate|].
    intros Hall. specialize (Hall j Hj). rewrite <- app_assoc in Hall. congruence.
Qed.




(** ** The bootstrap on concrete networks *)

Lemma connect_wifi_budget_witness :
  exists r w' attempts,
    connect_wifi 10 first_boot = Some (r, w')
    /\ trace w' = trace first_boot ++ connect_prefix first_boot ++ attempts
    /\ (polls attempts <= 10)%nat
    /\ paced false 0 attempts = true
    /\ (r = Raise wifi_error \/ r = Ok tt)
    /\ (r = Raise wifi_error <->
        unconnected_for 10 first_boot
          (trace first_boot ++ connect_prefix first_boot))
    /\ (r = Raise wifi_error -> polls attempts = 10%nat).
Proof.
  apply (connect_wifi_budget 10 first_boot).
  - lia.
  - reflexivity.
Defined.


(** The run on [first_boot], spelled out: ten failed rounds, then the
    fallback. *)
Example first_boot_falls_back :
  option_map fst (main 10 first_boot) = Some APMode
  /\ option_map (fun r => polls (trace (snd r))) (connect_wifi 10 first_boot)
     = Some 11%nat.
Proof. split; vm_compute; reflexivity. Qed.

(** * The credential file *)

(** ** What [save_wifi_credentials] writes *)

Lemma append_assoc (a b c : string) : (a +:+ b) +:+ c = a +:+ (b +:+ c).
Proof.
  induction a as [|x a IH]; [reflexivity|].
  change (String x ((a +:+ b) +:+ c) = String x (a +:+ (b +:+ c))).
  by rewrite IH.
Qed.

(** Both fields are written as they are, and the file holds nothing else:
    whatever it held before is gone. *)
Lemma save_wifi_credentials_writes (ssid password : string) (w : world) :
  files (save_wifi_credentials (Some ssid) (Some password) w)
  = <[CREDENTIALS_FILE := config_text ssid password]> (files w).
Proof.
  unfold save_wifi_credentials, config_text, fstr. cbn [files default].
  f_equal. cbn [String.append]. by rewrite !append_assoc.
Qed.

Lemma submit_saves (req : request) (ssid password : string) (w : world) :
  req !! "ssid" = Some ssid -> req !! "password" = Some password ->
  files (snd (submit req w)) !! CREDENTIALS_FILE
  = Some (config_text ssid password).
Proof.
  intros Hs Hp. unfold submit. rewrite Hs, Hp. cbn [snd emit files].
  rewrite save_wifi_credentials_writes. apply lookup_insert_eq.
Qed.

(** ** Reading the file back *)

Lemma plain_char_cases (c : ascii) :
  plain_char c = true ->
  Ascii.eqb c quote = false /\ Ascii.eqb c backslash = false
  /\ Ascii.eqb c LF = false /\ Ascii.eqb c CR = false
  /\ Ascii.eqb c NUL = false.
Proof.
  unfold plain_char.
  destruct (Ascii.eqb c quote), (Ascii.eqb c backslash), (Ascii.eqb c LF),
    (Ascii.eqb c CR), (Ascii.eqb c NUL); cbn; intros H;
    try discriminate; repeat split; reflexivity.
Qed.

Lemma read_literal_plain (s rest : string) :
  plain s = true ->
  read_literal (s +:+ String quote rest) = Some (s, rest).
Proof.
  induction s as [|c s IH]; intros Hplain.
  - reflexivity.
  - cbn [plain] in Hplain. apply andb_prop in Hplain as [Hc Hs].
    apply plain_char_cases in Hc as (Hq & Hb & Hl & Hr & Hn).
    change (String c s +:+ String quote rest)
      with (String c (s +:+ String quote rest)).
    cbn [read_literal]. rewrite Hq, Hb, Hl, Hr, Hn. cbn [orb].
    by rewrite (IH Hs).
Qed.

Lemma plain_no_line_feed (s : string) : plain s = true -> no_line_feed s = true.
Proof.
  induction s as [|c s IH]; [done|]. cbn [plain no_line_feed].
  intros Hplain. apply andb_prop in Hplain as [Hc Hs].
  apply plain_char_cases in Hc as (_ & _ & Hl & _ & _).
  by rewrite Hl, (IH Hs).
Qed.

Lemma no_line_feed_app (a b : string) :
  no_line_feed (a +:+ b) = no_line_feed a && no_line_feed b.
Proof.
  induction a as [|c a IH]; [reflexivity|].
  change (String c a +:+ b) with (String c (a +:+ b)).
  cbn [no_line_feed]. rewrite IH. by rewrite andb_assoc.
Qed.

Lemma split_lines_cut (a b : string) :
  no_line_feed a = true ->
  split_lines (a +:+ String LF b) = a :: split_lines b.
Proof.
  induction a as [|c a IH]; intros Hno.
  - reflexivity.
  - cbn [no_line_feed] in Hno. apply andb_prop in Hno as [Hc Ha].
    apply negb_true_iff in Hc.
    change (String c a +:+ String LF b) with (String c (a +:+ String LF b)).
    cbn [split_lines]. by rewrite Hc, (IH Ha).
Qed.

Lemma append_cons (c : ascii) (a b : string) :
  String c a +:+ b = String c (a +:+ b).
Proof. reflexivity. Qed.

(** A line made of a fixed head up to the opening quote, a plain text and
    the closing quote: compute through the head, read the literal. *)
Ltac parse_written_line text Hplain :=
  rewrite !append_cons;
  change (EmptyString +:+ (text +:+ "'"))
    with (text +:+ String quote EmptyString);
  let Hread := fresh "Hread" in
  pose proof (read_literal_plain text EmptyString Hplain) as Hread;
  revert Hread; generalize (text +:+ String quote EmptyString);
  let body := fresh "body" in
  intros body Hread;
  cbv -[read_literal]; rewrite Hread; reflexivity.

Lemma parse_line_SSID (text : string) :
  plain text = true ->
  parse_line ("SSID = '" +:+ text +:+ "'") = Some (Assign "SSID" text).
Proof. intros Hplain. parse_written_line text Hplain. Qed.

Lemma parse_line_PASSWORD (text : string) :
  plain text = true ->
  parse_line ("PASSWORD = '" +:+ text +:+ "'") = Some (Assign "PASSWORD" text).
Proof. intros Hplain. parse_written_line text Hplain. Qed.

Lemma split_config_text (ssid password : string) :
  plain ssid = true -> plain password = true ->
  split_lines (config_text ssid password)
  = ["SSID = '" +:+ ssid +:+ "'"; "PASSWORD = '" +:+ password +:+ "'";
     EmptyString].
Proof.
  intros Hs Hp. unfold config_text.
  assert (Hcut : forall (head text tail : string),
             no_line_feed head = true -> plain text = true ->
             split_lines (head +:+ text +:+ "'" +:+ nl +:+ tail)
             = (head +:+ text +:+ "'") :: split_lines tail).
  { intros head text tail Hh Ht.
    rewrite <- (split_lines_cut (head +:+ text +:+ "'") tail).
    - change (nl +:+ tail) with (String LF tail). by rewrite !append_assoc.
    - rewrite !no_line_feed_app, Hh, (plain_no_line_feed text Ht). reflexivity. }
  rewrite (Hcut "SSID = '" ssid _ eq_refl Hs).
  change ("PASSWORD = '" +:+ password +:+ "'" +:+ nl)
    with ("PASSWORD = '" +:+ password +:+ "'" +:+ nl +:+ EmptyString).
  by rewrite (Hcut "PASSWORD = '" password _ eq_refl Hp).
Qed.

(** For plain fields the file reads back as the very strings written: the
    part of the round trip the code does achieve. *)
Lemma credentials_reload_plain (ssid password : string) (w : world) :
  plain ssid = true -> plain password = true ->
  import_wifi_config
    (files (save_wifi_credentials (Some ssid) (Some password) w))
  = Some (ssid, password).
Proof.
  intros Hs Hp. rewrite save_wifi_credentials_writes.
  unfold import_wifi_config. rewrite lookup_insert_eq.
  rewrite (split_config_text ssid password Hs Hp).
  cbn [exec_lines]. rewrite (parse_line_SSID ssid Hs), (parse_line_PASSWORD password Hp).
  change (parse_line EmptyString) with (Some Pass). cbv beta iota.
  rewrite lookup_insert_ne by done. rewrite !lookup_insert_eq. reflexivity.
Qed.

(** ** A network name with an apostrophe *)

(** C7 at the input [ssid = John's iPhone], [password = secret]: [submit]
    writes both fields as they are, replacing the file; but the literal
    read back from the first line ends at the apostrophe, the rest of the
    line is left over, and the import at the next start fails: the restart
    finds no credentials at all, let alone the ones submitted. *)
Theorem submit_apostrophe_not_reloaded (w : world) :
  files (snd (submit apostrophe_request w)) !! CREDENTIALS_FILE
  = Some ("SSID = 'John's iPhone'" +:+ nl +:+ "PASSWORD = 'secret'" +:+ nl)
  /\ read_literal "John's iPhone'" = Some ("John", "s iPhone'")
  /\ import_wifi_config (files (snd (submit apostrophe_request w))) = None
  /\ restart (net w) (files (snd (submit apostrophe_request w))) = None
  /\ import_wifi_config (files (snd (submit apostrophe_request w)))
     <> Some ("John's iPhone", "secret").
Proof.
  assert (Hfile : files (snd (submit apostrophe_request w)) !! CREDENTIALS_FILE
                  = Some (config_text "John's iPhone" "secret")).
  { apply submit_saves; vm_compute; reflexivity. }
  assert (Himport : import_wifi_config (files (snd (submit apostrophe_request w)))
                    = None).
  { unfold import_wifi_config. rewrite Hfile. vm_compute. reflexivity. }
  split; [exact Hfile|]. split; [vm_compute; reflexivity|].
  split; [exact Himport|]. split.
  - unfold restart. by rewrite Himport.
  - by rewrite Himport.
Qed.

(** * Further properties of the register decoder *)

Lemma fold_insert_lookup_inv (regs : list reg_info) :
  forall (d : gmap string reg_info) (name : string) (reg : reg_info),
  fold_left (fun d reg => <[reg_name reg := reg]> d) regs d !! name = Some reg ->
  (reg ∈ regs /\ reg_name reg = name) \/ d !! name = Some reg.
Proof.
  induction regs as [|r rest IH]; intros d name reg Hlook; [by right|].
  cbn [fold_left] in Hlook. apply IH in Hlook as [[Hin Hname] | Hlook].
  - left. split; [by apply list_elem_of_further | exact Hname].
  - destruct (decide (reg_name r = name)) as [Heq | Hne].
    + subst name. rewrite lookup_insert_eq in Hlook. injection Hlook as <-.
      left. split; [apply list_elem_of_here | reflexivity].
    + rewrite lookup_insert_ne in Hlook by exact Hne. by right.
Qed.

Lemma reg_map_dict_lookup_inv (name : string) (reg : reg_info) :
  reg_map_dict _REG_MAP !! name = Some reg ->
  reg ∈ _REG_MAP /\ reg_name reg = name.
Proof.
  intros Hlook. apply fold_insert_lookup_inv in Hlook as [Hin | Hempty];
    [exact Hin | by rewrite lookup_empty in Hempty].
Qed.

Lemma reg_map_dict_None (name : string) :
  reg_map_dict _REG_MAP !! name = None -> name ∉ reg_names _REG_MAP.
Proof.
  intros Hnone Hin. unfold reg_names in Hin.
  apply list_elem_of_fmap in Hin as (reg & -> & Hreg).
  by rewrite (reg_map_dict_present reg Hreg) in Hnone.
Qed.

Lemma table_value_range (reg : reg_info) (raw : list byte) :
  reg ∈ _REG_MAP -> Z.of_nat (length raw) = reg_num_bytes reg ->
  0 <= big_endian_value raw < 256 ^ reg_num_bytes reg
  /\ big_endian_value raw < 65536.
Proof.
  intros Hin Hlen. pose proof (row_wf_elem reg Hin) as (Hwidth & _ & _).
  pose proof (big_endian_value_range raw) as Hr. rewrite Hlen in Hr.
  split; [exact Hr|]. destruct Hwidth as [Hw | Hw]; rewrite Hw in Hr; cbn in Hr; lia.
Qed.

(** X1.  Whatever comes of it, [get_sensor_data] for a row of the table
    issues exactly one bus transaction: at the object's device address, at
    the row's register address, for the row's width; and it leaves every
    field of the object as it was. *)
Theorem get_sensor_data_reads_once (self : state) (reg : reg_info) :
  cls_REG_MAP self = _REG_MAP ->
  reg ∈ _REG_MAP ->
  reads (snd (get_sensor_data (reg_name reg) self))
  = (reads self
     ++ [I2CRead (device_addr self) (reg_address reg) (reg_num_bytes reg)])%list
  /\ device_addr (snd (get_sensor_data (reg_name reg) self)) = device_addr self
  /\ bus (snd (get_sensor_data (reg_name reg) self)) = bus self
  /\ cls_REG_MAP (snd (get_sensor_data (reg_name reg) self)) = _REG_MAP.
Proof.
  intros Hcls Hin.
  pose proof (get_sensor_data_frame self (reg_name reg)) as (Hc & Hd & Hb & Hlog).
  rewrite Hcls, (reg_map_dict_present reg Hin) in Hlog.
  repeat split; [exact Hlog | exact Hd | exact Hb | congruence].
Qed.

(** X2.  An exception the bus raises during the read of a row comes out of
    [get_sensor_data] unchanged: the decoder neither catches nor wraps
    it. *)
Theorem get_sensor_data_bus_error_propagates (self : state) (reg : reg_info)
        (e : exn) :
  cls_REG_MAP self = _REG_MAP ->
  reg ∈ _REG_MAP ->
  bus self (reads self) (read_of self reg) = Raise e ->
  fst (get_sensor_data (reg_name reg) self) = Raise e.
Proof.
  intros Hcls Hin Hbus.
  assert (Hreg : reg_map_dict (cls_REG_MAP self) !! reg_name reg = Some reg)
    by (rewrite Hcls; by apply reg_map_dict_present).
  by rewrite (get_sensor_data_bus_error _ _ _ _ Hreg Hbus).
Qed.

(** X3.  The outcomes of [get_sensor_data] are these and no others.  A
    value comes only from a row of that name and a read of the row's width,
    with the row's unit and description.  An exception is the unknown-name
    error for a name outside the table, or else what the bus raised, or
    else the length error for a read of another length; the multiplication
    never fails. *)
Theorem get_sensor_data_outcomes (self : state) (name : string) :
  cls_REG_MAP self = _REG_MAP ->
  match fst (get_sensor_data name self) with
  | Ok (v, u, ds) =>
      exists reg raw,
        reg ∈ _REG_MAP /\ reg_name reg = name
        /\ bus self (reads self) (read_of self reg) = Ok raw
        /\ Z.of_nat (length raw) = reg_num_bytes reg
        /\ mul (Int (int_from_bytes_big raw)) (reg_scale reg) = Ok v
        /\ u = reg_unit reg /\ ds = reg_description reg
  | Raise e =>
      ((name ∉ reg_names _REG_MAP) /\ e = UnknownRegister name)
      \/ exists reg,
           reg ∈ _REG_MAP /\ reg_name reg = name
           /\ (bus self (reads self) (read_of self reg) = Raise e
               \/ exists raw,
                    bus self (reads self) (read_of self reg) = Ok raw
                    /\ Z.of_nat (length raw) <> reg_num_bytes reg
                    /\ e = ShortRead (reg_num_bytes reg) (Z.of_nat (length raw)))
  end.
Proof.
  intros Hcls.
  destruct (reg_map_dict (cls_REG_MAP self) !! name) as [reg|] eqn:Hreg.
  - pose proof Hreg as Hreg'. rewrite Hcls in Hreg'.
    apply reg_map_dict_lookup_inv in Hreg' as [Hin Hname].
    destruct (bus self (reads self) (read_of self reg)) as [raw|e] eqn:Hbus.
    + destruct (Z.eq_dec (Z.of_nat (length raw)) (reg_num_bytes reg)) as [Hlen|Hlen].
      * rewrite (get_sensor_data_full _ _ _ _ Hreg Hbus Hlen). cbn [fst].
        pose proof (table_value_range reg raw Hin Hlen) as [Hr Hr'].
        pose proof (row_wf_elem reg Hin) as (_ & _ & [Hs | Hs]); rewrite Hs.
        -- cbn [mul]. exists reg, raw. rewrite Hs. cbn [mul]. by repeat split.
        -- destruct (float_of_two_bytes (big_endian_value raw) ltac:(lia)) as [f Hf].
           cbn [mul]. rewrite int_from_bytes_big_value, Hf.
           exists reg, raw. rewrite Hs. cbn [mul].
           rewrite int_from_bytes_big_value, Hf. by repeat split.
      * rewrite (get_sensor_data_short _ _ _ _ Hreg Hbus Hlen). cbn [fst].
        right. exists reg. repeat split; [exact Hin | exact Hname |].
        right. exists raw. by repeat split.
    + rewrite (get_sensor_data_bus_error _ _ _ _ Hreg Hbus). cbn [fst].
      right. exists reg. repeat split; [exact Hin | exact Hname |]. by left.
  - rewrite (get_sensor_data_unknown _ _ Hreg). cbn [fst]. left.
    split; [|reflexivity]. apply reg_map_dict_None. by rewrite <- Hcls.
Qed.

(** X4.  A register scaled by [1] decodes to an integer, never a float,
    and the integer lies between 0 and [256^width - 1]: at most 65535 for
    the two-byte registers and at most 255 for the one-byte register. *)
Theorem integer_register_range (self : state) (reg : reg_info) (raw : list byte) :
  cls_REG_MAP self = _REG_MAP ->
  reg ∈ _REG_MAP ->
  reg_scale reg = Int 1 ->
  bus self (reads self) (read_of self reg) = Ok raw ->
  Z.of_nat (length raw) = reg_num_bytes reg ->
  exists n,
    fst (get_sensor_data (reg_name reg) self)
    = Ok (Int n, reg_unit reg, reg_description reg)
    /\ 0 <= n < 256 ^ reg_num_bytes reg
    /\ n <= 65535
    /\ (reg_num_bytes reg = 1 -> n <= 255).
Proof.
  intros Hcls Hin Hscale Hbus Hlen.
  assert (Hreg : reg_map_dict (cls_REG_MAP self) !! reg_name reg = Some reg)
    by (rewrite Hcls; by apply reg_map_dict_present).
  pose proof (table_value_range reg raw Hin Hlen) as [Hr Hr'].
  exists (big_endian_value raw).
  rewrite (get_sensor_data_full _ _ _ _ Hreg Hbus Hlen), Hscale.
  rewrite int_from_bytes_big_value. cbn [mul fst]. rewrite Z.mul_1_r.
  split; [reflexivity|]. split; [exact Hr|]. split; [lia|].
  intros Hone. rewrite Hone in Hr. cbn in Hr. lia.
Qed.

(** ** Registers scaled by a tenth *)

Lemma tenths_defined (z : Z) :
  0 <= z < 65536 ->
  exists f, mul (Int z) (Float lit_0_1) = Ok (Float f) /\ tenths z = Some f.
Proof.
  intros Hz. destruct (float_of_two_bytes z Hz) as [g Hg].
  exists (SFmul prec emax g lit_0_1). unfold tenths. cbn [mul]. by rewrite Hg.
Qed.


Lemma tenths_step_up_all (z : Z) :
  0 <= z < 65535 -> (tenths_val z < tenths_val (z + 1))%Q.
Proof.
  intros Hz.
  assert (Hall : all_from tenths_step_up (Z.to_nat 65535) 0 = true)
    by (vm_compute; reflexivity).
  assert (Hstep : tenths_step_up z = true).
  { apply (all_from_spec tenths_step_up _ 0 z Hall). rewrite Z2Nat.id; lia. }
  unfold tenths_step_up in Hstep. apply Qlt_alt.
  by destruct (tenths_val z ?= tenths_val (z + 1))%Q.
Qed.

Lemma tenths_val_increasing (n : nat) :
  forall a : Z, 0 <= a -> a + Z.of_nat (S n) < 65536 ->
  (tenths_val a < tenths_val (a + Z.of_nat (S n)))%Q.
Proof.
  induction n as [|n IH]; intros a Ha Hb.
  - change (Z.of_nat 1) with 1. apply tenths_step_up_all. lia.
  - apply Qlt_trans with (tenths_val (a + Z.of_nat (S n))).
    + apply IH; lia.
    + replace (a + Z.of_nat (S (S n))) with (a + Z.of_nat (S n) + 1) by lia.
      apply tenths_step_up_all. lia.
Qed.


(** X6.  A register scaled by [0.1] keeps readings apart and in order: of
    two reads of the row, the one with the larger raw value decodes to the
    strictly larger float. *)
Theorem tenths_register_increasing (s1 s2 : state) (reg : reg_info)
        (raw1 raw2 : list byte) :
  cls_REG_MAP s1 = _REG_MAP -> cls_REG_MAP s2 = _REG_MAP ->
  reg ∈ _REG_MAP ->
  reg_scale reg = Float lit_0_1 ->
  bus s1 (reads s1) (read_of s1 reg) = Ok raw1 ->
  bus s2 (reads s2) (read_of s2 reg) = Ok raw2 ->
  Z.of_nat (length raw1) = reg_num_bytes reg ->
  Z.of_nat (length raw2) = reg_num_bytes reg ->
  big_endian_value raw1 < big_endian_value raw2 ->
  exists f1 f2,
    fst (get_sensor_data (reg_name reg) s1)
    = Ok (Float f1, reg_unit reg, reg_description reg)
    /\ fst (get_sensor_data (reg_name reg) s2)
       = Ok (Float f2, reg_unit reg, reg_description reg)
    /\ (Qval f1 < Qval f2)%Q.
Proof.
  intros Hc1 Hc2 Hin Hscale Hb1 Hb2 Hl1 Hl2 Hlt.
  assert (Hreg1 : reg_map_dict (cls_REG_MAP s1) !! reg_name reg = Some reg)
    by (rewrite Hc1; by apply reg_map_dict_present).
  assert (Hreg2 : reg_map_dict (cls_REG_MAP s2) !! reg_name reg = Some reg)
    by (rewrite Hc2; by apply reg_map_dict_present).
  pose proof (table_value_range reg raw1 Hin Hl1) as [Hr1 Hr1'].
  pose proof (table_value_range reg raw2 Hin Hl2) as [Hr2 Hr2'].
  destruct (tenths_defined (big_endian_value raw1) ltac:(lia)) as (f1 & Hm1 & Ht1).
  destruct (tenths_defined (big_endian_value raw2) ltac:(lia)) as (f2 & Hm2 & Ht2).
  exists f1, f2.
  rewrite (get_sensor_data_full _ _ _ _ Hreg1 Hb1 Hl1), Hscale.
  rewrite (get_sensor_data_full _ _ _ _ Hreg2 Hb2 Hl2), Hscale.
  rewrite !int_from_bytes_big_value, Hm1, Hm2.
  split; [reflexivity|]. split; [reflexivity|].
  set (a := big_endian_value raw1) in *. set (b := big_endian_value raw2) in *.
  pose proof (tenths_val_increasing (Z.to_nat (b - a - 1)) a ltac:(lia)) as Hinc.
  replace (a + Z.of_nat (S (Z.to_nat (b - a - 1)))) with b in Hinc by lia.
  specialize (Hinc ltac:(lia)).
  unfold tenths_val in Hinc. by rewrite Ht1, Ht2 in Hinc.
Qed.

(** ** Further properties of the bulk read *)

(** The loop either gets through all its rows or stops at a first row whose
    decode raises. *)
Lemma get_all_loop_cases (regs : list reg_info) :
  forall (acc : gmap string reading) (self : state),
  (forall i name, reg_names regs !! i = Some name ->
     exists r, fst (get_sensor_data name
                      (run_decodes (take i (reg_names regs)) self)) = Ok r)
  \/ exists i name e,
       reg_names regs !! i = Some name
       /\ (forall j name', (j < i)%nat -> reg_names regs !! j = Some name' ->
             exists r, fst (get_sensor_data name'
                              (run_decodes (take j (reg_names regs)) self)) = Ok r)
       /\ fst (get_sensor_data name (run_decodes (take i (reg_names regs)) self))
          = Raise e.
Proof.
  induction regs as [|r rest IH]; intros acc self.
  - left. intros i name Hi. cbn in Hi. discriminate.
  - rewrite reg_names_cons.
    destruct (get_sensor_data (reg_name r) self) as [[res|e] self1] eqn:Hrun.
    + destruct (IH acc self1) as [Hall | (i & name & e & Hi & Hbefore & Hfail)].
      * left. intros i name Hi. destruct i as [|i].
        -- cbn in Hi. injection Hi as <-. rewrite run_decodes_take_0, Hrun. eauto.
        -- rewrite run_decodes_take_S, Hrun. by apply Hall.
      * right. exists (S i), name, e. split; [exact Hi|]. split.
        -- intros j name' Hj Hlook. destruct j as [|j].
           ++ cbn in Hlook. injection Hlook as <-.
              rewrite run_decodes_take_0, Hrun. eauto.
           ++ rewrite run_decodes_take_S, Hrun. apply Hbefore; [lia | exact Hlook].
        -- by rewrite run_decodes_take_S, Hrun.
    + right. exists 0%nat, (reg_name r), e. split; [reflexivity|]. split.
      * intros j name' Hj. lia.
      * by rewrite run_decodes_take_0, Hrun.
Qed.

(** X7.  A bulk read that succeeds has issued exactly ten transactions,
    one per row in table order, each at the object's device address, at
    the row's address and for the row's width. *)
Theorem get_all_sensor_data_reads (self : state) (d : gmap string reading) :
  cls_REG_MAP self = _REG_MAP ->
  fst (get_all_sensor_data self) = Ok d ->
  reads (snd (get_all_sensor_data self))
  = (reads self ++ (read_of self <$> _REG_MAP))%list
  /\ length (reads (snd (get_all_sensor_data self)))
     = (length (reads self) + 10)%nat.
Proof.
  intros Hcls Hok. unfold get_all_sensor_data in *. rewrite Hcls in *.
  destruct (get_all_loop_cases _REG_MAP ∅ self)
    as [Hall | (i & name & e & Hi & Hbefore & Hfail)].
  - destruct (get_all_loop_ok _REG_MAP ∅ self Hall) as (d' & Hloop & _).
    rewrite Hloop. cbn [snd].
    assert (Hsub : Forall (fun reg => reg ∈ _REG_MAP) _REG_MAP)
      by (apply Forall_forall; auto).
    pose proof (run_decodes_frame _REG_MAP self Hcls Hsub) as (_ & _ & _ & Hlog).
    rewrite Hlog. split; [reflexivity|].
    rewrite length_app, length_fmap. reflexivity.
  - rewrite (get_all_loop_fail _REG_MAP ∅ self i name e Hi Hbefore Hfail) in Hok.
    discriminate.
Qed.

(** X8.  When a bulk read raises, a row of the table is to blame: the rows
    before it decoded, and the exception is the one its decode raised,
    which is either what the bus raised on its transaction or the length
    error for what the bus returned.  With the table as it is, a bulk read
    never raises the unknown-name error. *)
Theorem get_all_sensor_data_failure_source (self : state) (e : exn) :
  cls_REG_MAP self = _REG_MAP ->
  fst (get_all_sensor_data self) = Raise e ->
  exists i reg,
    _REG_MAP !! i = Some reg
    /\ (forall j reg', (j < i)%nat -> _REG_MAP !! j = Some reg' ->
          exists r, fst (get_sensor_data (reg_name reg') (before_row j self)) = Ok r)
    /\ fst (get_sensor_data (reg_name reg) (before_row i self)) = Raise e
    /\ (bus self (reads (before_row i self)) (read_of self reg) = Raise e
        \/ exists raw,
             bus self (reads (before_row i self)) (read_of self reg) = Ok raw
             /\ Z.of_nat (length raw) <> reg_num_bytes reg
             /\ e = ShortRead (reg_num_bytes reg) (Z.of_nat (length raw))).
Proof.
  intros Hcls Hraise. unfold get_all_sensor_data in Hraise. rewrite Hcls in Hraise.
  destruct (get_all_loop_cases _REG_MAP ∅ self)
    as [Hall | (i & name & e' & Hi & Hbefore & Hfail)].
  - destruct (get_all_loop_ok _REG_MAP ∅ self Hall) as (d' & Hloop & _).
    rewrite Hloop in Hraise. discriminate.
  - rewrite (get_all_loop_fail _REG_MAP ∅ self i name e' Hi Hbefore Hfail) in Hraise.
    cbn [fst] in Hraise. injection Hraise as ->.
    apply reg_names_lookup_inv in Hi as (reg & Hreg & ->).
    exists i, reg. split; [exact Hreg|]. split.
    { intros j reg' Hj Hlook. apply (Hbefore j (reg_name reg') Hj).
      by apply reg_names_lookup. }
    split; [exact Hfail|].
    change (run_decodes (take i (reg_names _REG_MAP)) self)
      with (before_row i self) in Hfail.
    assert (Hsub : Forall (fun reg => reg ∈ _REG_MAP) (take i _REG_MAP)).
    { apply Forall_take, Forall_forall. auto. }
    pose proof (run_decodes_frame (take i _REG_MAP) self Hcls Hsub)
      as (Hc & Hd & Hb & _).
    unfold reg_names in Hc, Hd, Hb. rewrite fmap_take in Hc, Hd, Hb.
    fold (reg_names _REG_MAP) in Hc, Hd, Hb. fold (before_row i self) in Hc, Hd, Hb.
    assert (Hin : reg ∈ _REG_MAP) by (apply list_elem_of_lookup; eauto).
    assert (Hdict : reg_map_dict (cls_REG_MAP (before_row i self)) !! reg_name reg
                    = Some reg)
      by (rewrite Hc; by apply reg_map_dict_present).
    assert (Hread : read_of (before_row i self) reg = read_of self reg)
      by (unfold read_of; by rewrite Hd).
    rewrite <- Hb, <- Hread.
    destruct (bus (before_row i self) (reads (before_row i self))
                  (read_of (before_row i self) reg)) as [raw|e0] eqn:Hbus.
    + right. exists raw. split; [reflexivity|].
      destruct (Z.eq_dec (Z.of_nat (length raw)) (reg_num_bytes reg)) as [Hlen|Hlen].
      * exfalso.
        rewrite (get_sensor_data_full _ _ _ _ Hdict Hbus Hlen) in Hfail.
        cbn [fst] in Hfail.
        pose proof (table_value_range reg raw Hin Hlen) as [Hr Hr'].
        rewrite int_from_bytes_big_value in Hfail.
        pose proof (row_wf_elem reg Hin) as (_ & _ & [Hs | Hs]);
          rewrite Hs in Hfail; cbn [mul] in Hfail; [discriminate|].
        destruct (float_of_two_bytes (big_endian_value raw) ltac:(lia)) as [f Hf].
        rewrite Hf in Hfail. discriminate.
      * rewrite (get_sensor_data_short _ _ _ _ Hdict Hbus Hlen) in Hfail.
        cbn [fst] in Hfail. injection Hfail as <-. by split.
    + left. rewrite (get_sensor_data_bus_error _ _ _ _ Hdict Hbus) in Hfail.
      cbn [fst] in Hfail. by injection Hfail as <-.
Qed.

Lemma get_all_loop_bus (regs : list reg_info) :
  forall (acc : gmap string reading) (self : state),
  bus (snd (get_all_loop regs acc self)) = bus self.
Proof.
  induction regs as [|r rest IH]; intros acc self; [done|].
  cbn [get_all_loop]. unfold bind.
  pose proof (get_sensor_data_frame self (reg_name r)) as (_ & _ & Hb & _).
  destruct (get_sensor_data (reg_name r) self) as [[[[v u] ds]|e] self1];
    cbn [snd] in *; [|done].
  by rewrite IH.
Qed.

Lemma get_all_loop_result_stable (regs : list reg_info) :
  forall (acc : gmap string reading) (s1 s2 : state),
  cls_REG_MAP s1 = cls_REG_MAP s2 ->
  device_addr s1 = device_addr s2 ->
  bus s1 = bus s2 ->
  (forall h1 h2 rd, bus s1 h1 rd = bus s1 h2 rd) ->
  fst (get_all_loop regs acc s1) = fst (get_all_loop regs acc s2).
Proof.
  induction regs as [|r rest IH]; intros acc s1 s2 Hc Hd Hb Hind; [done|].
  cbn [get_all_loop]. unfold bind.
  pose proof (get_sensor_data_result_stable s1 s2 (reg_name r) Hc Hd Hb Hind) as Hres.
  pose proof (get_sensor_data_frame s1 (reg_name r)) as (Hc1 & Hd1 & Hb1 & _).
  pose proof (get_sensor_data_frame s2 (reg_name r)) as (Hc2 & Hd2 & Hb2 & _).
  destruct (get_sensor_data (reg_name r) s1) as [res1 s1'].
  destruct (get_sensor_data (reg_name r) s2) as [res2 s2'].
  cbn [fst snd] in *. subst res2.
  destruct res1 as [[[v u] ds]|e]; [|done].
  apply IH; [congruence | congruence | congruence |].
  intros h1 h2 rd. rewrite Hb1. apply Hind.
Qed.

(** X9.  On a bus whose answers do not depend on what was read before, a
    bulk read can be repeated: a second call on the same object gives the
    result of the first, be it the same mapping or the same exception. *)
Theorem get_all_sensor_data_repeatable (self : state) :
  (forall h1 h2 rd, bus self h1 rd = bus self h2 rd) ->
  fst (get_all_sensor_data (snd (get_all_sensor_data self)))
  = fst (get_all_sensor_data self).
Proof.
  intros Hind. unfold get_all_sensor_data.
  destruct (get_all_loop_frame (cls_REG_MAP self) ∅ self) as [Hc Hd].
  pose proof (get_all_loop_bus (cls_REG_MAP self) ∅ self) as Hb.
  rewrite Hc. symmetry.
  apply get_all_loop_result_stable; [congruence | congruence | congruence | exact Hind].
Qed.

(** X10.  The rows of the table do not get in each other's way: their
    names differ, so the dictionary [get_sensor_data] builds from the table
    holds all ten rows, each under its own name; and they are listed by
    rising address with no register reaching into the next. *)
Theorem _REG_MAP_rows_apart :
  NoDup (reg_names _REG_MAP)
  /\ size (reg_map_dict _REG_MAP) = 10%nat
  /\ (forall reg, reg ∈ _REG_MAP ->
        reg_map_dict _REG_MAP !! reg_name reg = Some reg)
  /\ (forall i j r1 r2, (i < j)%nat ->
        _REG_MAP !! i = Some r1 -> _REG_MAP !! j = Some r2 ->
        reg_end r1 <= reg_address r2).
Proof.
  split; [exact _REG_MAP_names_NoDup|]. split; [vm_compute; reflexivity|].
  split; [exact reg_map_dict_present|].
  intros i j r1 r2 Hij H1 H2.
  do 10 (destruct i as [|i];
         [injection H1 as <-;
          do 10 (destruct j as [|j];
                 [first [lia | injection H2 as <-; vm_compute; discriminate]|]);
          cbn in H2; discriminate|]).
  cbn in H1. discriminate.
Qed.

(** ** The further properties on concrete buses *)

Lemma get_sensor_data_reads_once_witness :
  reads (snd (get_sensor_data (reg_name T_comp) (default_init one_byte_bus)))
  = (reads (default_init one_byte_bus)
     ++ [I2CRead (device_addr (default_init one_byte_bus))
                 (reg_address T_comp) (reg_num_bytes T_comp)])%list
  /\ device_addr (snd (get_sensor_data (reg_name T_comp) (default_init one_byte_bus)))
     = device_addr (default_init one_byte_bus)
  /\ bus (snd (get_sensor_data (reg_name T_comp) (default_init one_byte_bus)))
     = bus (default_init one_byte_bus)
  /\ cls_REG_MAP (snd (get_sensor_data (reg_name T_comp) (default_init one_byte_bus)))
     = _REG_MAP.
Proof.
  apply (get_sensor_data_reads_once (default_init one_byte_bus) T_comp).
  - reflexivity.
  - exact T_comp_in_table.
Defined.

Lemma get_sensor_data_bus_error_propagates_witness :
  fst (get_sensor_data (reg_name PM10) (default_init dead_bus))
  = Raise (OSError 5).
Proof.
  apply (get_sensor_data_bus_error_propagates (default_init dead_bus) PM10 (OSError 5)).
  - reflexivity.
  - exact PM10_in_table.
  - reflexivity.
Defined.

Lemma get_sensor_data_outcomes_witness :
  match fst (get_sensor_data "AQI" (default_init steady_bus)) with
  | Ok (v, u, ds) =>
      exists reg raw,
        reg ∈ _REG_MAP /\ reg_name reg = "AQI"
        /\ bus (default_init steady_bus) (reads (default_init steady_bus))
               (read_of (default_init steady_bus) reg) = Ok raw
        /\ Z.of_nat (length raw) = reg_num_bytes reg
        /\ mul (Int (int_from_bytes_big raw)) (reg_scale reg) = Ok v
        /\ u = reg_unit reg /\ ds = reg_description reg
  | Raise e =>
      (("AQI" ∉ reg_names _REG_MAP) /\ e = UnknownRegister "AQI")
      \/ exists reg,
           reg ∈ _REG_MAP /\ reg_name reg = "AQI"
           /\ (bus (default_init steady_bus) (reads (default_init steady_bus))
                   (read_of (default_init steady_bus) reg) = Raise e
               \/ exists raw,
                    bus (default_init steady_bus) (reads (default_init steady_bus))
                        (read_of (default_init steady_bus) reg) = Ok raw
                    /\ Z.of_nat (length raw) <> reg_num_bytes reg
                    /\ e = ShortRead (reg_num_bytes reg) (Z.of_nat (length raw)))
  end.
Proof.
  apply (get_sensor_data_outcomes (default_init steady_bus) "AQI"). reflexivity.
Defined.

Lemma integer_register_range_witness :
  exists n,
    fst (get_sensor_data (reg_name PM10) (default_init steady_bus))
    = Ok (Int n, reg_unit PM10, reg_description PM10)
    /\ 0 <= n < 256 ^ reg_num_bytes PM10
    /\ n <= 65535
    /\ (reg_num_bytes PM10 = 1 -> n <= 255).
Proof.
  apply (integer_register_range (default_init steady_bus) PM10 [x00; x64]%byte).
  - reflexivity.
  - exact PM10_in_table.
  - reflexivity.
  - reflexivity.
  - reflexivity.
Defined.


Lemma tenths_register_increasing_witness :
  exists f1 f2,
    fst (get_sensor_data (reg_name T_comp) (default_init steady_bus))
    = Ok (Float f1, reg_unit T_comp, reg_description T_comp)
    /\ fst (get_sensor_data (reg_name T_comp) (default_init warm_bus))
       = Ok (Float f2, reg_unit T_comp, reg_description T_comp)
    /\ (Qval f1 < Qval f2)%Q.
Proof.
  apply (tenths_register_increasing (default_init steady_bus) (default_init warm_bus)
           T_comp [x00; x64]%byte [x01; x03]%byte).
  - reflexivity.
  - reflexivity.
  - exact T_comp_in_table.
  - reflexivity.
  - reflexivity.
  - reflexivity.
  - reflexivity.
  - reflexivity.
  - vm_compute. reflexivity.
Defined.

Lemma get_all_sensor_data_reads_witness :
  reads (snd (get_all_sensor_data (default_init steady_bus)))
  = (reads (default_init steady_bus)
     ++ (read_of (default_init steady_bus) <$> _REG_MAP))%list
  /\ length (reads (snd (get_all_sensor_data (default_init steady_bus))))
     = (length (reads (default_init steady_bus)) + 10)%nat.
Proof.
  apply (get_all_sensor_data_reads (default_init steady_bus)
           (match fst (get_all_sensor_data (default_init steady_bus)) with
            | Ok d => d
            | Raise _ => ∅
            end)).
  - reflexivity.
  - vm_compute. reflexivity.
Defined.

Lemma get_all_sensor_data_failure_source_witness :
  exists i reg,
    _REG_MAP !! i = Some reg
    /\ (forall j reg', (j < i)%nat -> _REG_MAP !! j = Some reg' ->
          exists r, fst (get_sensor_data (reg_name reg')
                           (before_row j (default_init flaky_bus))) = Ok r)
    /\ fst (get_sensor_data (reg_name reg) (before_row i (default_init flaky_bus)))
       = Raise (OSError 5)
    /\ (bus (default_init flaky_bus)
            (reads (before_row i (default_init flaky_bus)))
            (read_of (default_init flaky_bus) reg) = Raise (OSError 5)
        \/ exists raw,
             bus (default_init flaky_bus)
                 (reads (before_row i (default_init flaky_bus)))
                 (read_of (default_init flaky_bus) reg) = Ok raw
             /\ Z.of_nat (length raw) <> reg_num_bytes reg
             /\ OSError 5 = ShortRead (reg_num_bytes reg) (Z.of_nat (length raw))).
Proof.
  apply (get_all_sensor_data_failure_source (default_init flaky_bus) (OSError 5)).
  - reflexivity.
  - vm_compute. reflexivity.
Defined.

Lemma get_all_sensor_data_repeatable_witness :
  fst (get_all_sensor_data (snd (get_all_sensor_data (default_init steady_bus))))
  = fst (get_all_sensor_data (default_init steady_bus)).
Proof.
  apply (get_all_sensor_data_repeatable (default_init steady_bus)).
  intros h1 h2 rd. reflexivity.
Defined.

(** * Properties of the sensor page *)

Import Page.

Lemma read_of_same_device (s1 s2 : state) (reg : reg_info) :
  device_addr s1 = device_addr s2 -> read_of s1 reg = read_of s2 reg.
Proof. intros Hd. unfold read_of. by rewrite Hd. Qed.

(** The transactions a run of the loop logs are those of a first stretch
    of its rows. *)
Lemma get_all_loop_reads_prefix (regs : list reg_info) :
  forall (acc : gmap string reading) (self : state),
  cls_REG_MAP self = _REG_MAP ->
  Forall (fun reg => reg ∈ _REG_MAP) regs ->
  exists k, (k <= length regs)%nat
            /\ reads (snd (get_all_loop regs acc self))
               = reads self ++ (read_of self <$> take k regs).
Proof.
  induction regs as [|r rest IH]; intros acc self Hcls Hsub.
  - exists 0%nat. split; [reflexivity|]. cbn. by rewrite app_nil_r.
  - apply Forall_cons in Hsub as [Hr Hrest].
    pose proof (get_sensor_data_frame self (reg_name r)) as (Hc & Hd & _ & Hlog).
    rewrite Hcls, (reg_map_dict_present r Hr) in Hlog.
    cbn [get_all_loop]. unfold bind.
    destruct (get_sensor_data (reg_name r) self) as [[[[v u] ds]|e] self1];
      cbn [snd] in *.
    + destruct (IH (<[reg_name r := Reading v u ds]> acc) self1) as (k & Hk & Hreads);
        [congruence | exact Hrest |].
      exists (S k). split; [cbn; lia|].
      change (take (S k) (r :: rest)) with (r :: take k rest).
      rewrite Hreads, Hlog, <- app_assoc, fmap_cons. cbn [app].
      f_equal. f_equal. apply list_fmap_ext. intros _ reg _.
      by apply read_of_same_device.
    + exists 1%nat. split; [cbn; lia|]. rewrite Hlog. reflexivity.
Qed.

(** X11.  A request for the sensor page keeps to the table: from the
    module's sensor object on, through any number of requests, every
    transaction is addressed to 0x12 and reads one register of the table at
    its width; a request issues at most ten of them, ten when it succeeds.
    The handler returns the rendering of the bulk read's mapping, and an
    exception of the read leaves the handler as it is, with nothing
    rendered. *)
Theorem index_keeps_to_table (render : gmap string reading -> string)
        (request : Main.request) (self : state) :
  page_invariant self ->
  page_invariant (snd (index render request self))
  /\ (length (reads (snd (index render request self)))
      <= length (reads self) + 10)%nat
  /\ (forall d, fst (get_all_sensor_data self) = Ok d ->
        fst (index render request self) = Ok (render d)
        /\ length (reads (snd (index render request self)))
           = (length (reads self) + 10)%nat)
  /\ (forall e, fst (get_all_sensor_data self) = Raise e ->
        fst (index render request self) = Raise e)
  /\ (forall b, page_invariant (sensor b)).
Proof.
  intros (Hcls & Hdev & Hreads).
  assert (Hsnd : snd (index render request self) = snd (get_all_sensor_data self)).
  { unfold index, bind, ret. by destruct (get_all_sensor_data self) as [[d|e] s']. }
  assert (Hsub : Forall (fun reg => reg ∈ _REG_MAP) _REG_MAP)
    by (apply Forall_forall; auto).
  destruct (get_all_loop_reads_prefix _REG_MAP ∅ self Hcls Hsub) as (k & Hk & Hlog).
  destruct (get_all_loop_frame _REG_MAP ∅ self) as [Hc Hd].
  rewrite Hsnd. unfold get_all_sensor_data in *. rewrite Hcls in *.
  split; [|split; [|split; [|split]]].
  - split; [congruence|]. split; [congruence|].
    rewrite Hlog. apply Forall_app. split; [exact Hreads|].
    apply Forall_fmap, Forall_forall. intros reg Hin.
    apply elem_of_take in Hin as (i & Hi & _).
    split; [exact Hdev|]. exists reg. split; [|by split].
    apply list_elem_of_lookup. eauto.
  - rewrite Hlog, length_app, length_fmap, length_take. cbn in Hk. cbn. lia.
  - intros d Hok. split.
    + unfold index, bind, ret, get_all_sensor_data. rewrite Hcls.
      destruct (get_all_loop _REG_MAP ∅ self) as [[d'|e] s'];
        cbn [fst] in Hok; [by injection Hok as -> | discriminate].
    + destruct (get_all_loop_cases _REG_MAP ∅ self)
        as [Hall | (i & name & e & Hi & Hbefore & Hfail)].
      * destruct (get_all_loop_ok _REG_MAP ∅ self Hall) as (d' & Hloop & _).
        rewrite Hloop. cbn [snd].
        pose proof (run_decodes_frame _REG_MAP self Hcls Hsub) as (_ & _ & _ & Hl).
        rewrite Hl, length_app, length_fmap. reflexivity.
      * rewrite (get_all_loop_fail _REG_MAP ∅ self i name e Hi Hbefore Hfail) in Hok.
        discriminate.
  - intros e Hraise. unfold index, bind, ret, get_all_sensor_data. rewrite Hcls.
    destruct (get_all_loop _REG_MAP ∅ self) as [[d'|e'] s'];
      cbn [fst] in Hraise; [discriminate | by injection Hraise as ->].
  - intros b. split; [reflexivity|]. split; [reflexivity|]. apply Forall_nil_2.
Qed.

Lemma index_keeps_to_table_witness :
  page_invariant (snd (index (fun _ => "page") ∅ (sensor steady_bus)))
  /\ (length (reads (snd (index (fun _ => "page") ∅ (sensor steady_bus))))
      <= length (reads (sensor steady_bus)) + 10)%nat
  /\ (forall d, fst (get_all_sensor_data (sensor steady_bus)) = Ok d ->
        fst (index (fun _ => "page") ∅ (sensor steady_bus))
        = Ok ((fun _ => "page") d)
        /\ length (reads (snd (index (fun _ => "page") ∅ (sensor steady_bus))))
           = (length (reads (sensor steady_bus)) + 10)%nat)
  /\ (forall e, fst (get_all_sensor_data (sensor steady_bus)) = Raise e ->
        fst (index (fun _ => "page") ∅ (sensor steady_bus)) = Raise e)
  /\ (forall b, page_invariant (sensor b)).
Proof.
  apply (index_keeps_to_table (fun _ => "page") ∅ (sensor steady_bus)).
  split; [reflexivity|]. split; [reflexivity|]. apply Forall_nil_2.
Defined.

(** * Further properties of the Wi-Fi bootstrap *)

Lemma sleep_count_app (a b : list event) :
  sleep_count (a ++ b) = (sleep_count a + sleep_count b)%nat.
Proof.
  induction a as [|e a IH]; [reflexivity|].
  destruct e; cbn; rewrite IH; reflexivity.
Qed.

Lemma connects_app (a b : list event) :
  connects (a ++ b) = connects a ++ connects b.
Proof.
  induction a as [|e a IH]; [reflexivity|].
  destruct e; cbn; rewrite IH; reflexivity.
Qed.

Lemma sta_off_count_app (a b : list event) :
  sta_off_count (a ++ b) = (sta_off_count a + sta_off_count b)%nat.
Proof.
  induction a as [|e a IH]; [reflexivity|].
  destruct e as [[|]| | | | | | | | | |]; cbn; rewrite IH; reflexivity.
Qed.

Lemma failed_rounds_counts (j : nat) :
  sleep_count (failed_rounds j) = j
  /\ connects (failed_rounds j) = []
  /\ sta_off_count (failed_rounds j) = 0%nat
  /\ forallb (fun e => negb (is_ap_event e)) (failed_rounds j) = true.
Proof.
  induction j as [|j (Hs & Hc & Ho & Ha)]; [by repeat split|].
  cbn. rewrite Hs, Hc, Ho, Ha. by repeat split.
Qed.

(** X12.  When the station is connected already, [connect_wifi] is done
    after its first status check, whatever the fuel: it returns normally
    having asked for no connection and slept not at all. *)
Theorem connect_wifi_already_connected (fuel : nat) (w : world) :
  net_isconnected (net w) (trace w ++ [EvStaActive true]) = true ->
  exists ip,
    connect_wifi fuel w
    = Some (Ok tt,
            with_trace w (trace w ++ [EvStaActive true; EvIsConnected true]
                                  ++ connected_messages ip))
    /\ connects ([EvStaActive true; EvIsConnected true] ++ connected_messages ip)
       = []
    /\ sleep_count ([EvStaActive true; EvIsConnected true]
                    ++ connected_messages ip) = 0%nat.
Proof.
  intros Hyes. unfold connect_wifi, isconnected.
  rewrite !emit_with_trace. cbn [trace net with_trace SSID PASSWORD files].
  rewrite Hyes. cbn [negb]. eexists. split; [|split; reflexivity].
  rewrite !emit_with_trace. unfold with_trace, connected_messages.
  cbn [trace net SSID PASSWORD files]. rewrite <- !app_assoc. reflexivity.
Qed.

(** X13.  When the station is not connected yet, [connect_wifi] asks for a
    connection exactly once, with the stored SSID and password, and sleeps
    one second per failed poll of its loop: at most ten seconds in all, and
    ten exactly when it gives up. *)
Theorem connect_wifi_effort (fuel : nat) (w : world) :
  (10 <= fuel)%nat ->
  net_isconnected (net w) (trace w ++ [EvStaActive true]) = false ->
  exists r w' added,
    connect_wifi fuel w = Some (r, w')
    /\ trace w' = trace w ++ added
    /\ connects added = [(SSID w, PASSWORD w)]
    /\ (sleep_count added <= 10)%nat
    /\ (r = Raise wifi_error -> sleep_count added = 10%nat)
    /\ (r = Ok tt -> (sleep_count added < 10)%nat
                     /\ polls added = (sleep_count added + 2)%nat).
Proof.
  intros Hfuel Hfirst.
  destruct (connect_wifi_cases fuel w Hfuel)
    as [[Hyes _] | [(_ & Hun & Hrun) | (_ & j & ip & Hj & Hun & Hyes & Hrun)]].
  - congruence.
  - exists (Raise wifi_error). eexists.
    exists (connect_prefix w ++ failed_rounds 10 ++ [EvStaActive false]).
    split; [exact Hrun|]. split; [reflexivity|].
    rewrite !sleep_count_app, !connects_app.
    destruct (failed_rounds_counts 10) as (Hs & Hc & _ & _). rewrite Hs, Hc.
    cbn. split; [reflexivity|]. split; [lia|]. split; [reflexivity|].
    discriminate.
  - exists (Ok tt). eexists.
    exists (connect_prefix w ++ failed_rounds j
            ++ [EvIsConnected true] ++ connected_messages ip).
    split; [exact Hrun|]. split; [reflexivity|].
    rewrite !sleep_count_app, !connects_app.
    destruct (failed_rounds_counts j) as (Hs & Hc & _ & _). rewrite Hs, Hc.
    cbn [connects connect_prefix connected_messages sleep_count app].
    split; [reflexivity|]. split; [lia|]. split; [discriminate|].
    intros _. split; [lia|].
    cbn [polls app connect_prefix]. rewrite polls_failed_rounds. cbn. lia.
Qed.

(** X14.  [connect_wifi] switches the station interface off exactly when it
    gives up, as its last act before raising; a run that returns normally
    never switches it off.  Either way the file system and the credentials
    in memory are what they were. *)
Theorem connect_wifi_radio (fuel : nat) (w : world) :
  (10 <= fuel)%nat ->
  exists r w' added,
    connect_wifi fuel w = Some (r, w')
    /\ trace w' = trace w ++ added
    /\ (r = Raise wifi_error ->
        sta_off_count added = 1%nat /\ last added = Some (EvStaActive false))
    /\ (r = Ok tt -> sta_off_count added = 0%nat)
    /\ forallb (fun e => negb (is_ap_event e)) added = true
    /\ files w' = files w /\ SSID w' = SSID w /\ PASSWORD w' = PASSWORD w
    /\ net w' = net w.
Proof.
  intros Hfuel.
  destruct (connect_wifi_cases fuel w Hfuel)
    as [[_ [ip Hrun]] | [(_ & Hun & Hrun) | (_ & j & ip & Hj & Hun & Hyes & Hrun)]].
  - exists (Ok tt). eexists.
    exists ([EvStaActive true; EvIsConnected true] ++ connected_messages ip).
    split; [exact Hrun|]. split; [reflexivity|].
    split; [discriminate|]. by repeat split.
  - exists (Raise wifi_error). eexists.
    exists (connect_prefix w ++ failed_rounds 10 ++ [EvStaActive false]).
    split; [exact Hrun|]. split; [reflexivity|].
    destruct (failed_rounds_counts 10) as (_ & _ & Ho & Ha).
    split.
    { intros _. rewrite !sta_off_count_app, Ho. split; [reflexivity|].
      rewrite !app_assoc. apply last_snoc. }
    split; [discriminate|].
    rewrite !forallb_app, Ha. by repeat split.
  - exists (Ok tt). eexists.
    exists (connect_prefix w ++ failed_rounds j
            ++ [EvIsConnected true] ++ connected_messages ip).
    split; [exact Hrun|]. split; [reflexivity|].
    destruct (failed_rounds_counts j) as (_ & _ & Ho & Ha).
    split; [discriminate|].
    split; [intros _; by rewrite !sta_off_count_app, Ho|].
    rewrite !forallb_app, Ha. by repeat split.
Qed.

(** ** The access-point fallback *)

Lemma ap_wait_loop_up (fuel : nat) :
  forall (w : world) (k : nat),
  (k < fuel)%nat ->
  ap_down_for k w (trace w) ->
  net_ap_active (net w) (trace w ++ ap_waits k) = true ->
  ap_wait_loop fuel w
  = Some (with_trace w (trace w ++ ap_waits k ++ [EvApIsActive true])).
Proof.
  induction fuel as [|fuel IH]; intros w k Hk Hdown Hup; [lia|].
  cbn [ap_wait_loop]. unfold ap_is_active.
  destruct k as [|k].
  - cbn [ap_waits] in Hup. rewrite app_nil_r in Hup. rewrite Hup. cbn [negb].
    by rewrite emit_with_trace.
  - pose proof (Hdown 0%nat ltac:(lia)) as H0. cbn [ap_waits] in H0.
    rewrite app_nil_r in H0. rewrite H0. cbn [negb].
    rewrite (IH _ k); [| lia | |].
    + rewrite !emit_with_trace. unfold with_trace.
      cbn [trace SSID PASSWORD net files ap_waits]. rewrite <- !app_assoc.
      reflexivity.
    + intros i Hi. rewrite !emit_with_trace. unfold with_trace. cbn [trace net].
      specialize (Hdown (S i) ltac:(lia)). cbn [ap_waits] in Hdown.
      rewrite <- !app_assoc. exact Hdown.
    + rewrite !emit_with_trace. unfold with_trace. cbn [trace net].
      cbn [ap_waits] in Hup. rewrite <- !app_assoc. exact Hup.
Qed.

Lemma ap_wait_loop_stuck (fuel : nat) :
  forall w : world,
  (forall t, net_ap_active (net w) t = false) ->
  ap_wait_loop fuel w = None.
Proof.
  induction fuel as [|fuel IH]; intros w Hdown; [reflexivity|].
  cbn [ap_wait_loop]. unfold ap_is_active. rewrite Hdown. cbn [negb].
  apply IH. intros t. rewrite !emit_with_trace. cbn [with_trace net]. apply Hdown.
Qed.

Lemma ap_waits_counts (k : nat) :
  sleep_count (ap_waits k) = k /\ connects (ap_waits k) = []
  /\ sta_off_count (ap_waits k) = 0%nat.
Proof.
  induction k as [|k (Hs & Hc & Ho)]; [by repeat split|].
  cbn. rewrite Hs, Hc, Ho. by repeat split.
Qed.

(** X15.  [start_ap_mode] switches the access point off and on, names it
    [AQISetup] with open security, and then waits for it to come up,
    checking once a second: if the access point is up at check [k + 1],
    the function has slept [k] seconds and goes on to start the form
    server on port 80.  It touches neither the file system nor the
    credentials in memory. *)
Theorem start_ap_mode_waits (fuel : nat) (w : world) (k : nat) :
  (k < fuel)%nat ->
  ap_down_for k w (trace w ++ ap_prefix) ->
  net_ap_active (net w) (trace w ++ ap_prefix ++ ap_waits k) = true ->
  exists ifconfig w',
    start_ap_mode fuel w = Some w'
    /\ trace w' = trace w ++ ap_prefix ++ ap_waits k
                  ++ [EvApIsActive true] ++ ap_started ifconfig
    /\ sleep_count (ap_prefix ++ ap_waits k ++ [EvApIsActive true]
                    ++ ap_started ifconfig) = k
    /\ files w' = files w /\ SSID w' = SSID w /\ PASSWORD w' = PASSWORD w.
Proof.
  intros Hk Hdown Hup. unfold start_ap_mode. rewrite !emit_with_trace.
  cbn [with_trace trace SSID PASSWORD net files].
  set (w4 := with_trace w (trace w ++ ap_prefix)).
  match goal with
  | |- context [ap_wait_loop fuel ?x] =>
      replace x with w4
        by (unfold w4, with_trace, ap_prefix; by rewrite <- !app_assoc)
  end.
  rewrite (ap_wait_loop_up fuel w4 k Hk);
    [| exact Hdown | cbn [w4 with_trace trace net]; by rewrite <- app_assoc].
  eexists. eexists. split; [reflexivity|].
  rewrite !emit_with_trace. unfold w4, with_trace, ap_started.
  cbn [trace SSID PASSWORD net files]. split.
  { rewrite <- !app_assoc. reflexivity. }
  split; [|by repeat split].
  rewrite !sleep_count_app. destruct (ap_waits_counts k) as (Hs & _ & _).
  rewrite Hs. cbn. lia.
Qed.

(** X16.  The wait in [start_ap_mode] has no bound: on a radio whose access
    point never reports itself up, the function does not return, however
    long it is run, and so neither does the top level once it has fallen
    back. *)
Theorem start_ap_mode_no_timeout (w : world) :
  (forall t, net_ap_active (net w) t = false) ->
  (forall fuel, start_ap_mode fuel w = None)
  /\ (forall fuel, (10 <= fuel)%nat ->
        unconnected_for 10 w (trace w ++ connect_prefix w) ->
        net_isconnected (net w) (trace w ++ [EvStaActive true]) = false ->
        main fuel w = None).
Proof.
  intros Hdown.
  assert (Hap : forall fuel w0, net w0 = net w -> start_ap_mode fuel w0 = None).
  { intros fuel w0 Hnet. unfold start_ap_mode.
    rewrite ap_wait_loop_stuck; [reflexivity|].
    intros t. rewrite !emit_with_trace. cbn [with_trace net]. rewrite Hnet.
    apply Hdown. }
  split; [intros fuel; by apply Hap|].
  intros fuel Hfuel Hun Hfirst. unfold main, try_connect.
  destruct (connect_wifi_cases fuel w Hfuel)
    as [[Hyes _] | [(_ & _ & Hrun) | (_ & j & ip & Hj & _ & Hyes & _)]].
  - congruence.
  - rewrite Hrun. cbn [is_WifiConnectionError wifi_error].
    by rewrite Hap.
  - specialize (Hun j Hj). rewrite <- app_assoc in Hun. congruence.
Qed.




(** * Further properties of the credential form *)

Lemma save_wifi_credentials_fstr (ssid password : option string) (w : world) :
  files (save_wifi_credentials ssid password w)
  = <[CREDENTIALS_FILE := config_text (fstr ssid) (fstr password)]> (files w).
Proof.
  unfold save_wifi_credentials, config_text. cbn [files].
  f_equal. cbn [String.append]. by rewrite !append_assoc.
Qed.

Lemma submit_files (req : request) (w : world) :
  files (snd (submit req w))
  = <[CREDENTIALS_FILE := config_text (fstr (req !! "ssid"))
                                      (fstr (req !! "password"))]> (files w).
Proof. unfold submit. cbn [snd emit files]. apply save_wifi_credentials_fstr. Qed.

Lemma import_config_text (a b : string) (fs : gmap string string) :
  plain a = true -> plain b = true ->
  import_wifi_config (<[CREDENTIALS_FILE := config_text a b]> fs) = Some (a, b).
Proof.
  intros Ha Hb. unfold import_wifi_config. rewrite lookup_insert_eq.
  rewrite (split_config_text a b Ha Hb).
  cbn [exec_lines]. rewrite (parse_line_SSID a Ha), (parse_line_PASSWORD b Hb).
  change (parse_line EmptyString) with (Some Pass). cbv beta iota.
  rewrite lookup_insert_ne by done. rewrite !lookup_insert_eq. reflexivity.
Qed.

(** X18.  [submit] rewrites the credentials file and no other; the
    credentials the running program holds stay as they are, so the new
    ones count only after the restart.  It switches the access point off
    and only then schedules the one reset, five seconds on. *)
Theorem submit_changes_one_file (req : request) (w : world) :
  (forall path, path <> CREDENTIALS_FILE ->
     files (snd (submit req w)) !! path = files w !! path)
  /\ files (snd (submit req w)) !! CREDENTIALS_FILE
     = Some (config_text (fstr (req !! "ssid")) (fstr (req !! "password")))
  /\ SSID (snd (submit req w)) = SSID w
  /\ PASSWORD (snd (submit req w)) = PASSWORD w
  /\ trace (snd (submit req w))
     = trace w ++ [EvSleep (Float lit_0_1); EvApActive false;
                   EvTimerOneShotReset 5000]
  /\ fst (submit req w) = saved_page.
Proof.
  split; [|split].
  - intros path Hpath. rewrite submit_files. by rewrite lookup_insert_ne.
  - rewrite submit_files. apply lookup_insert_eq.
  - unfold submit. cbn [fst snd emit SSID PASSWORD trace save_wifi_credentials].
    repeat split. by rewrite <- !app_assoc.
Qed.

(** X19.  The file holds the last submission only: of two posts in a row,
    the second leaves the file system as if the first had not been made. *)
Theorem submit_last_wins (req1 req2 : request) (w : world) :
  files (snd (submit req2 (snd (submit req1 w))))
  = files (snd (submit req2 w)).
Proof. rewrite !submit_files. apply insert_insert_eq. Qed.

(** X20.  A post that lacks its [ssid] field is saved all the same: the
    missing field is written as the word [None], and the next start loads
    the four letters [None] as the network name. *)
Theorem submit_missing_ssid (req : request) (password : string) (w : world) :
  req !! "ssid" = None ->
  req !! "password" = Some password ->
  plain password = true ->
  files (snd (submit req w)) !! CREDENTIALS_FILE
  = Some (config_text "None" password)
  /\ import_wifi_config (files (snd (submit req w))) = Some ("None", password)
  /\ exists w1,
       restart (net w) (files (snd (submit req w))) = Some w1
       /\ SSID w1 = "None" /\ PASSWORD w1 = password.
Proof.
  intros Hs Hp Hplain.
  assert (Himport : import_wifi_config (files (snd (submit req w)))
                    = Some ("None", password)).
  { rewrite submit_files, Hs, Hp. cbn [fstr default].
    by apply import_config_text. }
  split; [rewrite submit_files, Hs, Hp; apply lookup_insert_eq|].
  split; [exact Himport|].
  unfold restart. rewrite Himport. eexists. by repeat split.
Qed.

(** X21.  Credentials made of plain characters (no quote, backslash, line
    break or null character) survive the round trip: after the post and
    the restart the program holds exactly the submitted SSID and password,
    and when the station is not connected its one connection request
    carries them. *)
Theorem submit_then_restart (req : request) (ssid password : string)
        (w : world) (n : network) :
  req !! "ssid" = Some ssid ->
  req !! "password" = Some password ->
  plain ssid = true -> plain password = true ->
  exists w1,
    restart n (files (snd (submit req w))) = Some w1
    /\ SSID w1 = ssid /\ PASSWORD w1 = password /\ trace w1 = []
    /\ files w1 = files (snd (submit req w))
    /\ (net_isconnected n [EvStaActive true] = false ->
        forall fuel, (10 <= fuel)%nat ->
        exists r w2,
          connect_wifi fuel w1 = Some (r, w2)
          /\ connects (trace w2) = [(ssid, password)]).
Proof.
  intros Hs Hp Hps Hpp.
  assert (Himport : import_wifi_config (files (snd (submit req w)))
                    = Some (ssid, password)).
  { rewrite submit_files, Hs, Hp. cbn [fstr default].
    by apply import_config_text. }
  unfold restart. rewrite Himport. eexists. split; [reflexivity|].
  cbn [SSID PASSWORD trace files]. repeat split.
  intros Hfirst fuel Hfuel.
  set (w1 := {| SSID := ssid; PASSWORD := password; net := n;
                files := files (snd (submit req w)); trace := [] |}).
  destruct (connect_wifi_cases fuel w1 Hfuel)
    as [[Hyes _] | [(_ & _ & Hrun) | (_ & j & ip & _ & _ & _ & Hrun)]].
  - cbn [w1 net trace app] in Hyes. congruence.
  - eexists. eexists. split; [exact Hrun|].
    cbn [with_trace trace w1 app]. rewrite !connects_app.
    destruct (failed_rounds_counts 10) as (_ & Hc & _ & _). by rewrite Hc.
  - eexists. eexists. split; [exact Hrun|].
    cbn [with_trace trace w1 app]. rewrite !connects_app.
    destruct (failed_rounds_counts j) as (_ & Hc & _ & _). by rewrite Hc.
Qed.

(** * Readings are kept apart *)

Lemma byte_to_N_inj (x y : byte) : Byte.to_N x = Byte.to_N y -> x = y.
Proof.
  intros Heq. pose proof (Byte.of_to_N x) as Hx. pose proof (Byte.of_to_N y) as Hy.
  rewrite Heq in Hx. congruence.
Qed.

Lemma big_endian_value_inj (a : list byte) :
  forall b : list byte,
  length a = length b -> big_endian_value a = big_endian_value b -> a = b.
Proof.
  induction a as [|x a IH]; intros [|y b] Hlen Hval; try discriminate; [done|].
  cbn [length] in Hlen. injection Hlen as Hlen.
  cbn [big_endian_value] in Hval. rewrite <- Hlen in Hval.
  pose proof (big_endian_value_range a) as Ha.
  pose proof (big_endian_value_range b) as Hb. rewrite <- Hlen in Hb.
  pose proof (byte_range x) as Hx. pose proof (byte_range y) as Hy.
  set (P := 256 ^ Z.of_nat (length a)) in *.
  assert (Hxy : Z.of_N (Byte.to_N x) = Z.of_N (Byte.to_N y)) by nia.
  assert (Hrest : big_endian_value a = big_endian_value b) by nia.
  f_equal; [apply byte_to_N_inj; lia | by apply IH].
Qed.

(** X22.  No two raw readings of a register are taken for one: when two
    reads of a row, each of the row's width, decode to the same value, the
    bytes read were the same.  This holds for the rows scaled by a tenth
    too: the float product keeps all 65536 raw values apart. *)
Theorem decode_injective (s1 s2 : state) (reg : reg_info)
        (raw1 raw2 : list byte) :
  cls_REG_MAP s1 = _REG_MAP -> cls_REG_MAP s2 = _REG_MAP ->
  reg ∈ _REG_MAP ->
  bus s1 (reads s1) (read_of s1 reg) = Ok raw1 ->
  bus s2 (reads s2) (read_of s2 reg) = Ok raw2 ->
  Z.of_nat (length raw1) = reg_num_bytes reg ->
  Z.of_nat (length raw2) = reg_num_bytes reg ->
  fst (get_sensor_data (reg_name reg) s1) = fst (get_sensor_data (reg_name reg) s2) ->
  raw1 = raw2.
Proof.
  intros Hc1 Hc2 Hin Hb1 Hb2 Hl1 Hl2 Hsame.
  assert (Hreg1 : reg_map_dict (cls_REG_MAP s1) !! reg_name reg = Some reg)
    by (rewrite Hc1; by apply reg_map_dict_present).
  assert (Hreg2 : reg_map_dict (cls_REG_MAP s2) !! reg_name reg = Some reg)
    by (rewrite Hc2; by apply reg_map_dict_present).
  rewrite (get_sensor_data_full _ _ _ _ Hreg1 Hb1 Hl1) in Hsame.
  rewrite (get_sensor_data_full _ _ _ _ Hreg2 Hb2 Hl2) in Hsame.
  cbn [fst] in Hsame. rewrite !int_from_bytes_big_value in Hsame.
  pose proof (table_value_range reg raw1 Hin Hl1) as [Hr1 Hr1'].
  pose proof (table_value_range reg raw2 Hin Hl2) as [Hr2 Hr2'].
  apply big_endian_value_inj; [lia|].
  set (a := big_endian_value raw1) in *. set (b := big_endian_value raw2) in *.
  pose proof (row_wf_elem reg Hin) as (_ & _ & [Hs | Hs]); rewrite Hs in Hsame.
  - cbn [mul] in Hsame. injection Hsame as Hsame. lia.
  - destruct (tenths_defined a ltac:(lia)) as (f1 & Hm1 & Ht1).
    destruct (tenths_defined b ltac:(lia)) as (f2 & Hm2 & Ht2).
    rewrite Hm1, Hm2 in Hsame. injection Hsame as Hsame.
    assert (Hval : tenths_val a = tenths_val b)
      by (unfold tenths_val; by rewrite Ht1, Ht2, Hsame).
    destruct (Z.lt_trichotomy a b) as [Hlt | [Heq | Hgt]]; [|exact Heq|].
    + pose proof (tenths_val_increasing (Z.to_nat (b - a - 1)) a ltac:(lia)) as Hinc.
      replace (a + Z.of_nat (S (Z.to_nat (b - a - 1)))) with b in Hinc by lia.
      specialize (Hinc ltac:(lia)). rewrite Hval in Hinc.
      by apply Qlt_irrefl in Hinc.
    + pose proof (tenths_val_increasing (Z.to_nat (a - b - 1)) b ltac:(lia)) as Hinc.
      replace (b + Z.of_nat (S (Z.to_nat (a - b - 1)))) with a in Hinc by lia.
      specialize (Hinc ltac:(lia)). rewrite Hval in Hinc.
      by apply Qlt_irrefl in Hinc.
Qed.

Lemma decode_injective_witness :
  [x01; x03]%byte = [x01; x03]%byte.
Proof.
  apply (decode_injective (default_init warm_bus)
           (log_read (I2CRead 0x12 0x04 2) (default_init warm_bus))
           T_comp [x01; x03]%byte [x01; x03]%byte).
  - reflexivity.
  - reflexivity.
  - exact T_comp_in_table.
  - reflexivity.
  - reflexivity.
  - reflexivity.
  - reflexivity.
  - vm_compute. reflexivity.
Defined.

(** * Names with an apostrophe *)







(** The name [O\'Neill], typed with a backslash before the apostrophe, does
    load: as [O'Neill], one character short. *)
Example escaped_apostrophe_loads :
  import_wifi_config (files (snd (submit escaped_request first_boot)))
  = Some ("O'Neill", "secret").
Proof. vm_compute. reflexivity. Qed.

(** * The further bootstrap properties on concrete networks *)

Lemma connect_wifi_already_connected_witness :
  exists ip,
    connect_wifi 0 online_boot
    = Some (Ok tt,
            with_trace online_boot
              (trace online_boot ++ [EvStaActive true; EvIsConnected true]
                                 ++ connected_messages ip))
    /\ connects ([EvStaActive true; EvIsConnected true] ++ connected_messages ip)
       = []
    /\ sleep_count ([EvStaActive true; EvIsConnected true]
                    ++ connected_messages ip) = 0%nat.
Proof.
  apply (connect_wifi_already_connected 0 online_boot). reflexivity.
Defined.

Lemma connect_wifi_effort_witness :
  exists r w' added,
    connect_wifi 10 first_boot = Some (r, w')
    /\ trace w' = trace first_boot ++ added
    /\ connects added = [(SSID first_boot, PASSWORD first_boot)]
    /\ (sleep_count added <= 10)%nat
    /\ (r = Raise wifi_error -> sleep_count added = 10%nat)
    /\ (r = Ok tt -> (sleep_count added < 10)%nat
                     /\ polls added = (sleep_count added + 2)%nat).
Proof.
  apply (connect_wifi_effort 10 first_boot).
  - lia.
  - reflexivity.
Defined.

Lemma connect_wifi_radio_witness :
  exists r w' added,
    connect_wifi 10 first_boot = Some (r, w')
    /\ trace w' = trace first_boot ++ added
    /\ (r = Raise wifi_error ->
        sta_off_count added = 1%nat /\ last added = Some (EvStaActive false))
    /\ (r = Ok tt -> sta_off_count added = 0%nat)
    /\ forallb (fun e => negb (is_ap_event e)) added = true
    /\ files w' = files first_boot /\ SSID w' = SSID first_boot
    /\ PASSWORD w' = PASSWORD first_boot
    /\ net w' = net first_boot.
Proof.
  apply (connect_wifi_radio 10 first_boot). lia.
Defined.

Lemma slow_ap_down_twice :
  ap_down_for 2 ap_boot (trace ap_boot ++ ap_prefix).
Proof.
  intros k Hk. destruct k as [|[|k]]; [reflexivity | reflexivity | lia].
Defined.

Lemma start_ap_mode_waits_witness :
  exists ifconfig w',
    start_ap_mode 3 ap_boot = Some w'
    /\ trace w' = trace ap_boot ++ ap_prefix ++ ap_waits 2
                  ++ [EvApIsActive true] ++ ap_started ifconfig
    /\ sleep_count (ap_prefix ++ ap_waits 2 ++ [EvApIsActive true]
                    ++ ap_started ifconfig) = 2%nat
    /\ files w' = files ap_boot /\ SSID w' = SSID ap_boot
    /\ PASSWORD w' = PASSWORD ap_boot.
Proof.
  apply (start_ap_mode_waits 3 ap_boot 2).
  - lia.
  - exact slow_ap_down_twice.
  - reflexivity.
Defined.

Lemma start_ap_mode_no_timeout_witness :
  (forall fuel, start_ap_mode fuel stuck_boot = None)
  /\ (forall fuel, (10 <= fuel)%nat ->
        unconnected_for 10 stuck_boot (trace stuck_boot ++ connect_prefix stuck_boot) ->
        net_isconnected (net stuck_boot) (trace stuck_boot ++ [EvStaActive true])
        = false ->
        main fuel stuck_boot = None).
Proof.
  apply (start_ap_mode_no_timeout stuck_boot). intros t. reflexivity.
Defined.


Lemma submit_missing_ssid_witness :
  files (snd (submit nameless_request first_boot)) !! CREDENTIALS_FILE
  = Some (config_text "None" "secret")
  /\ import_wifi_config (files (snd (submit nameless_request first_boot)))
     = Some ("None", "secret")
  /\ exists w1,
       restart (net first_boot) (files (snd (submit nameless_request first_boot)))
       = Some w1
       /\ SSID w1 = "None" /\ PASSWORD w1 = "secret".
Proof.
  apply (submit_missing_ssid nameless_request "secret" first_boot).
  - vm_compute. reflexivity.
  - vm_compute. reflexivity.
  - reflexivity.
Defined.

Lemma submit_then_restart_witness :
  exists w1,
    restart no_wifi (files (snd (submit home_request first_boot))) = Some w1
    /\ SSID w1 = "home" /\ PASSWORD w1 = "secret" /\ trace w1 = []
    /\ files w1 = files (snd (submit home_request first_boot))
    /\ (net_isconnected no_wifi [EvStaActive true] = false ->
        forall fuel, (10 <= fuel)%nat ->
        exists r w2,
          connect_wifi fuel w1 = Some (r, w2)
          /\ connects (trace w2) = [("home", "secret")]).
Proof.
  apply (submit_then_restart home_request "home" "secret" first_boot no_wifi).
  - vm_compute. reflexivity.
  - vm_compute. reflexivity.
  - reflexivity.
  - reflexivity.
Defined.
